(** * HTTPolice report rendering ([httpolice/report.py])

    A shallow embedding of the two report backends of HTTPolice, the
    plain-text transcript ([TextReport]) and the hypertext document
    ([HTMLReport]), together with the helpers they share
    ([reference_targets], [piece_to_text], [piece_to_html],
    [displayable_body]).

    Python 2 values are represented as follows:
    - [str] (8-bit string) is [bytes], a list of [Byte.byte];
    - [unicode] is a list of code points ([N]);
    - an object whose identity matters carries its [id] and type name;
    - a method of [TextReport] is a computation in a state-and-error monad
      over the report object ([self.outfile], [self.written]);
    - the [dominate] element tree is the inductive type [node]; a function
      that creates elements inside a [with] block returns the list of the
      elements it adds to the enclosing context. *)

From Stdlib Require Import Strings.String Strings.Ascii Strings.Byte DecimalString.
From Stdlib Require Import NArith Bool Lia List.
From Stdlib Require DecimalN.
Import ListNotations.

Set Warnings "-register-all".

Open Scope N_scope.
Open Scope list_scope.

(** ** Strings *)

Definition bytes := list byte.
Definition unicode := list N.

(** A [str] literal. *)
Definition B (s : string) : bytes := list_byte_of_string s.

(** A [unicode] literal made of ASCII characters, [u'...']. *)
Definition U (s : string) : unicode := map Byte.to_N (list_byte_of_string s).

(** The line feed, written [\n] in the source. *)
Definition LF : N := 10.
Definition nl : unicode := [LF].

Definition byte_of (n : N) : byte :=
  match Byte.of_N (n mod 256) with
  | Some b => b
  | None => x00
  end.

(** [unicode(n)] and [u'%d' % n] for a non-negative integer. *)
Definition decimal (n : N) : unicode :=
  U (NilEmpty.string_of_uint (N.to_uint n)).

(** [sep.join(parts)] *)
Fixpoint join (sep : unicode) (parts : list unicode) : unicode :=
  match parts with
  | [] => []
  | [p] => p
  | p :: rest => p ++ sep ++ join sep rest
  end.

(** *** Codecs

    [utf8_encode] is [s.encode('utf-8')]: one to four bytes per code point
    (Python 2 also encodes lone surrogates, so the encoder is total). *)
Definition utf8_encode_char (c : N) : list N :=
  if c <? 0x80 then [c]
  else if c <? 0x800 then
    [N.lor 0xC0 (N.shiftr c 6); N.lor 0x80 (N.land c 0x3F)]
  else if c <? 0x10000 then
    [N.lor 0xE0 (N.shiftr c 12);
     N.lor 0x80 (N.land (N.shiftr c 6) 0x3F);
     N.lor 0x80 (N.land c 0x3F)]
  else
    [N.lor 0xF0 (N.land (N.shiftr c 18) 0x07);
     N.lor 0x80 (N.land (N.shiftr c 12) 0x3F);
     N.lor 0x80 (N.land (N.shiftr c 6) 0x3F);
     N.lor 0x80 (N.land c 0x3F)].

Definition utf8_encode (s : unicode) : bytes :=
  map byte_of (flat_map utf8_encode_char s).

(** The [errors] argument of [str.decode]; the report only uses these two. *)
Inductive errors := Ignore | Replace.

Definition REPLACEMENT : N := 0xFFFD.

Definition on_error (e : errors) : unicode :=
  match e with
  | Ignore => []
  | Replace => [REPLACEMENT]
  end.

(** [s.decode('ascii', errors)] *)
Definition ascii_decode (e : errors) (s : bytes) : unicode :=
  flat_map (fun b => if Byte.to_N b <? 0x80 then [Byte.to_N b] else on_error e) s.

Definition is_continuation (b : byte) : bool :=
  N.land (Byte.to_N b) 0xC0 =? 0x80.

(** Length of the sequence announced by a lead byte; [0] marks a byte that
    cannot start a sequence. *)
Definition utf8_code_length (c : N) : N :=
  if c <? 0x80 then 1
  else if c <? 0xC2 then 0
  else if c <? 0xE0 then 2
  else if c <? 0xF0 then 3
  else if c <? 0xF5 then 4
  else 0.

Definition cont_bits (b : byte) : N := N.land (Byte.to_N b) 0x3F.

(** [s.decode('utf-8', errors)], after the decoder of CPython 2.7: the lead
    byte announces the length, surrogates are let through, and a malformed
    sequence makes the error handler run once and decoding resume after the
    bytes found wrong. *)
Fixpoint utf8_decode (e : errors) (s : bytes) : unicode :=
  match s with
  | [] => []
  | b0 :: r0 =>
    let c0 := Byte.to_N b0 in
    match utf8_code_length c0 with
    | 1 => c0 :: utf8_decode e r0
    | 2 =>
      match r0 with
      | b1 :: r1 =>
        if is_continuation b1
        then (N.shiftl (N.land c0 0x1F) 6 + cont_bits b1) :: utf8_decode e r1
        else on_error e ++ utf8_decode e r0
      | [] => on_error e
      end
    | 3 =>
      match r0 with
      | b1 :: r1 =>
        match r1 with
        | b2 :: r2 =>
          if is_continuation b1 && is_continuation b2
             && negb ((c0 =? 0xE0) && (Byte.to_N b1 <? 0xA0))
          then (N.shiftl (N.land c0 0x0F) 12 + N.shiftl (cont_bits b1) 6
                + cont_bits b2) :: utf8_decode e r2
          else if is_continuation b1
               then on_error e ++ utf8_decode e r1
               else on_error e ++ utf8_decode e r0
        | [] =>
          if is_continuation b1 then on_error e
          else on_error e ++ utf8_decode e r0
        end
      | [] => on_error e
      end
    | 4 =>
      match r0 with
      | b1 :: r1 =>
        match r1 with
        | b2 :: r2 =>
          match r2 with
          | b3 :: r3 =>
            if is_continuation b1 && is_continuation b2 && is_continuation b3
               && negb ((c0 =? 0xF0) && (Byte.to_N b1 <? 0x90))
               && negb ((c0 =? 0xF4) && (0x8F <? Byte.to_N b1))
            then (N.shiftl (N.land c0 0x07) 18 + N.shiftl (cont_bits b1) 12
                  + N.shiftl (cont_bits b2) 6 + cont_bits b3)
                 :: utf8_decode e r3
            else if is_continuation b1
                 then if is_continuation b2
                      then on_error e ++ utf8_decode e r2
                      else on_error e ++ utf8_decode e r1
                 else on_error e ++ utf8_decode e r0
          | [] =>
            if is_continuation b1
            then if is_continuation b2 then on_error e
                 else on_error e ++ utf8_decode e r1
            else on_error e ++ utf8_decode e r0
          end
        | [] =>
          if is_continuation b1 then on_error e
          else on_error e ++ utf8_decode e r0
        end
      | [] => on_error e
      end
    | _ => on_error e ++ utf8_decode e r0
    end
  end.

(** ** The text report

    [TextReport] holds the output file and the flag [written].  The file is
    the sequence of chunks handed to [outfile.write], oldest first. *)

Record TextReport := mkTextReport {
  outfile : list bytes;
  written : bool
}.

(** [TextReport.__init__] *)
Definition TextReport_init (out : list bytes) : TextReport :=
  {| outfile := out; written := false |}.

(** What the file holds once every chunk is written. *)
Definition getvalue (out : list bytes) : bytes := concat out.

(** A method of the report: it may raise ([None]) or return a value and the
    updated object. *)
Definition M (A : Type) : Type := TextReport -> option (A * TextReport).

Definition ret {A} (a : A) : M A := fun self => Some (a, self).

Definition bind {A B} (m : M A) (k : A -> M B) : M B :=
  fun self =>
    match m self with
    | Some (a, self') => k a self'
    | None => None
    end.

Definition raise {A} : M A := fun _ => None.

Notation "x <- m ;; k" := (bind m (fun x => k))
  (at level 61, m at next level, right associativity).
Notation "m ;; k" := (bind m (fun _ => k))
  (at level 61, right associativity).

(** [for x in xs: body(x)] *)
Fixpoint for_each {A} (xs : list A) (body : A -> M unit) : M unit :=
  match xs with
  | [] => ret tt
  | x :: rest => body x ;; for_each rest body
  end.

(** [when c: m] *)
Definition when (c : bool) (m : M unit) : M unit :=
  if c then m else ret tt.

(** [TextReport.write] *)
Definition write (s : unicode) : M unit :=
  fun self =>
    Some (tt, {| outfile := outfile self ++ [utf8_encode s];
                 written := true |}).

(** [TextReport.write_more] *)
Definition write_more (s : unicode) : M unit :=
  fun self => (when (written self) (write nl) ;; write s) self.

(** The chunks a computation leaves in the file, when it returns. *)
Definition output_of {A} (m : M A) (self : TextReport) : option (list bytes) :=
  match m self with
  | Some (_, self') => Some (outfile self')
  | None => None
  end.

(** [x, sep, y, sep, z]: the separator between neighbours only. *)
Fixpoint intersperse {A} (sep : A) (xs : list A) : list A :=
  match xs with
  | [] => []
  | [x] => [x]
  | x :: rest => x :: sep :: intersperse sep rest
  end.

(** ** The analysed traffic

    The classes of the model live outside [report.py]; each record lists the
    attributes the report reads. *)

(** What [type(obj).__name__] and [id(obj)] give for an object. *)
Record object := mkObject {
  type_name : unicode;
  id : N
}.

(** An object shown through [unicode(obj)]: a method, a version, a field
    name, a token of a notice. *)
Record atom := mkAtom {
  atom_obj : object;
  text : unicode
}.

(** A [str] object. *)
Record pystr := mkStr {
  str_obj : object;
  str_bytes : bytes
}.

(** A status code: an integer that is also an object. *)
Record StatusCode := mkStatus {
  status_obj : object;
  status_value : N
}.

Definition atom_of_status (s : StatusCode) : atom :=
  {| atom_obj := status_obj s; text := decimal (status_value s) |}.

(** An attribute that may hold [None] or the marker [Unparseable]. *)
Inductive slot (A : Type) : Type :=
| NoneValue
| Unparseable
| Okay (a : A).
Arguments NoneValue {A}.
Arguments Unparseable {A}.
Arguments Okay {A} a.

(** [httpolice.structure.okay] *)
Definition okay {A} (x : slot A) : bool :=
  match x with
  | Okay _ => true
  | _ => false
  end.

Record HeaderEntry := mkEntry {
  entry_obj : object;
  name : atom;
  value : pystr
}.

(** What a reference of a notice may resolve to, as [reference_targets]
    tells the cases apart. *)
Inductive referent :=
| HeaderView (entries : list HeaderEntry)
| PyList (items : list referent)
| Other (o : object).

(** A bibliographic entry ([piece.info]). *)
Record citation := mkCitation {
  cite_atom : atom;
  url : unicode
}.

(** A piece of an annotated header value: a [str] or a known object. *)
Inductive annotated :=
| AnnotatedStr (s : pystr)
| AnnotatedKnown (a : atom).

(** ** The element tree

    An element as it is handed to [dominate]: its tag, the keyword arguments
    of the call (with those added by [H.attr]) and what it holds.  How the
    keywords become attributes and how the tree is serialised is the
    library's business. *)
Inductive node :=
| Element (tag : unicode) (kwargs : list (unicode * unicode)) (children : list node)
| Text (s : unicode).

(** [dominate.document]: the title and what was added to the head and to the
    body. *)
Record document := mkDocument {
  document_title : unicode;
  head : list node;
  document_body : list node
}.

Definition unicode_eqb (a b : unicode) : bool :=
  if list_eq_dec N.eq_dec a b then true else false.

Section Model.

Context {context : Type}.

(** The content of a notice, by the branch of the dispatch that takes it. *)
Inductive piece :=
| Ref (get_contents : context -> list piece) (resolve : context -> referent)
| Citation (contents : list piece) (info : citation)
| WithContents (contents : list piece)
| Parametrized (item : piece)
| WithName (its_name : piece)
| Leaf (a : atom).

Record Notice := mkNotice {
  ident : N;
  severity : unicode;
  severity_short : unicode;
  title : list piece;
  explanation : list (list piece)
}.

Definition complaint : Type := N * context.

Record Message := mkMessage {
  message_obj : object;
  version : atom;
  header_entries : list HeaderEntry;
  trailer_entries : option (list HeaderEntry);
  body : slot pystr;
  decoded_body : slot bytes;
  transfer_encoding : bool;  (* is [msg.headers.transfer_encoding] true *)
  content_encoding : bool;   (* is [msg.headers.content_encoding] true *)
  body_charset : option unicode;  (* [message.body_charset(msg)] *)
  annotations : list ((bool * nat) * list annotated);
  complaints : option (list complaint);
  collect_complaints : option (list complaint)
}.

Record Request := mkRequest {
  method : atom;
  target : atom;
  request_message : Message
}.

Record Response := mkResponse {
  status : StatusCode;
  reason : pystr;
  response_message : Message
}.

Record Exchange := mkExchange {
  exchange_obj : object;
  exchange_complaints : option (list complaint);
  request : slot Request;
  responses : option (list (slot Response))
}.

Record Connection := mkConnection {
  connection_obj : object;
  exchanges : list Exchange;
  unparsed_inbound : bytes;
  unparsed_outbound : bytes
}.

(** [xs or []] *)
Definition or_empty {A} (xs : option (list A)) : list A :=
  match xs with
  | Some l => l
  | None => []
  end.

(** ** Shared helpers *)

(** [for_object]; it is only applied to objects that are [okay]. *)
Definition for_object (obj : object) (extra_class : unicode)
  : list (unicode * unicode) :=
  [(U "class", type_name obj ++ U " " ++ extra_class);
   (U "id", decimal (id obj))].

Definition anchor (o : object) : unicode := U "#" ++ decimal (id o).

(** [reference_targets] *)
Fixpoint reference_targets (obj : referent) : list unicode :=
  match obj with
  | HeaderView entries => map (fun entry => anchor (entry_obj entry)) entries
  | PyList items =>
    (fix over (items : list referent) : list unicode :=
       match items with
       | [] => []
       | item :: rest => reference_targets item ++ over rest
       end) items
  | Other o => [anchor o]
  end.

(** [unicode.isspace], which [strip] uses. *)
Definition isspace (c : N) : bool :=
  ((0x09 <=? c) && (c <=? 0x0D)) || ((0x1C <=? c) && (c <=? 0x20))
  || (c =? 0x85) || (c =? 0xA0) || (c =? 0x1680) || (c =? 0x180E)
  || ((0x2000 <=? c) && (c <=? 0x200A)) || (c =? 0x2028) || (c =? 0x2029)
  || (c =? 0x202F) || (c =? 0x205F) || (c =? 0x3000).

(** The class [\s] of [re] when no flag is given. *)
Definition re_space (c : N) : bool :=
  ((0x09 <=? c) && (c <=? 0x0D)) || (c =? 0x20).

Fixpoint lstrip (s : unicode) : unicode :=
  match s with
  | [] => []
  | c :: rest => if isspace c then lstrip rest else s
  end.

Definition rstrip (s : unicode) : unicode := rev (lstrip (rev s)).

(** [s.strip()] *)
Definition strip (s : unicode) : unicode := rstrip (lstrip s).

(** [re.sub(ur'\s+', u' ', s)]: [in_run] tells that the character before was
    matched, so the run has its space already. *)
Fixpoint sub_spaces (in_run : bool) (s : unicode) : unicode :=
  match s with
  | [] => []
  | c :: rest =>
    if re_space c
    then if in_run then sub_spaces true rest else 0x20 :: sub_spaces true rest
    else c :: sub_spaces false rest
  end.

Definition collapse_spaces (s : unicode) : unicode := sub_spaces false s.

(** [piece_to_text]; the inner loop is [pieces_to_text].  The bibliographic
    entry of a citation has no contents, item or name, so that
    [piece_to_text(piece.info, ctx)] ends in the last branch and gives
    [unicode(piece.info)]. *)
Fixpoint piece_to_text (p : piece) (ctx : context) : unicode :=
  let pieces :=
    fix pieces (ps : list piece) : unicode :=
      match ps with
      | [] => []
      | q :: rest => piece_to_text q ctx ++ pieces rest
      end in
  match p with
  | Ref get_contents _ => pieces (get_contents ctx)
  | Citation contents info =>
    let quote := collapse_spaces (strip (pieces contents)) in
    match quote with
    | _ :: _ => [0x201C] ++ quote ++ [0x201D] ++ U " (" ++ text (cite_atom info) ++ U ")"
    | [] => text (cite_atom info)
    end
  | WithContents contents => pieces contents
  | Parametrized item => piece_to_text item ctx
  | WithName its_name => piece_to_text its_name ctx
  | Leaf a => text a
  end.

(** [pieces_to_text] *)
Definition pieces_to_text (pieces : list piece) (ctx : context) : unicode :=
  concat (map (fun p => piece_to_text p ctx) pieces).

(** [notice_to_text] *)
Definition notice_to_text (the_notice : Notice) (ctx : context) : unicode :=
  let info := decimal (ident the_notice) ++ U " " ++ severity_short the_notice in
  let title := strip (pieces_to_text (title the_notice) ctx) in
  let explanation :=
    join nl (map (fun para => strip (pieces_to_text para ctx))
                 (explanation the_notice)) in
  U "**** " ++ info ++ U "    " ++ title ++ nl ++ explanation ++ nl.

(** What the report takes from the rest of the package and from the
    libraries. *)
Record Collaborators := mkCollaborators {
  (* [notice.notices[ident]]; [None] is a [KeyError] *)
  notices : N -> option Notice;
  (* [known.is_known], [known.citation], [known.title(obj, with_citation=True)] *)
  is_known : atom -> bool;
  known_citation : atom -> option citation;
  known_title : atom -> option unicode;
  (* [codecs.lookup(charset).name]; [None] is a [LookupError] *)
  codecs_lookup : unicode -> option unicode;
  (* [r.decode(name, errors)] for a codec other than UTF-8 and ASCII; [None]
     when the codec raises, as those that are no text encodings do when
     given an error handler other than 'strict' *)
  codec_decode : unicode -> errors -> bytes -> option unicode;
  (* which characters [httpolice.util.text] takes as printable *)
  is_printable : N -> bool;
  (* [httpolice.util.text.nicely_join] *)
  nicely_join : list unicode -> unicode;
  (* [document.render()] *)
  document_render : document -> unicode
}.

Variable env : Collaborators.

(** [r.decode(name, errors)]; [None] when it raises.  With the handlers that
    the report uses, the codecs of UTF-8 and ASCII always return. *)
Definition decode (codec_name : unicode) (e : errors) (r : bytes)
  : option unicode :=
  if unicode_eqb codec_name (U "utf-8") then Some (utf8_decode e r)
  else if unicode_eqb codec_name (U "ascii") then Some (ascii_decode e r)
  else codec_decode env codec_name e r.

(** Modelled from the spec: [has_nonprintable] and [printable] of
    [httpolice.util.text], which is not part of the sources at hand.  The
    spec has step 6 of the body pipeline replace any non-printable character
    with a placeholder glyph and note it if any replacement occurred; the
    glyph is the sign U+FFFD named in the note. *)
Definition has_nonprintable (s : unicode) : bool :=
  existsb (fun c => negb (is_printable env c)) s.

Definition printable (s : unicode) : unicode :=
  map (fun c => if is_printable env c then c else REPLACEMENT) s.

Definition limit : N := 5000.

(** [message.body_charset(msg) or 'UTF-8'] *)
Definition declared_charset (msg : Message) : unicode :=
  match body_charset msg with
  | Some (c :: cs) => c :: cs
  | _ => U "UTF-8"
  end.

(** The name of the codec that the [try] statement of [displayable_body]
    leaves in [codec]. *)
Definition resolve_codec (charset : unicode) : unicode :=
  match codecs_lookup env charset with
  | Some codec_name => codec_name
  | None => U "utf-8"
  end.

(** The first part of [displayable_body], up to the line that sets the
    limit: the text of a body that is [okay] and the notes so far, or [None]
    when the call of [decode], which is outside the [try] statement,
    raises. *)
Definition body_text (msg : Message) (raw : pystr)
  : option (unicode * list unicode) :=
  let transforms :=
    if transfer_encoding msg then [U "removing Transfer-Encoding"] else [] in
  match
    match decoded_body msg with
    | Okay decoded =>
      let transforms :=
        transforms ++
        (if content_encoding msg then [U "removing Content-Encoding"] else []) in
      let charset := declared_charset msg in
      let codec := resolve_codec charset in
      match decode codec Replace decoded with
      | Some r =>
        Some (r,
              transforms ++
              (if negb (unicode_eqb codec (U "utf-8"))
               then [U "decoding from " ++ charset] else []))
      | None => None
      end
    | _ => Some (utf8_decode Replace (str_bytes raw), transforms)
    end
  with
  | Some (r, transforms) =>
    if has_nonprintable r
    then Some (printable r,
               transforms ++
               [U "replacing non-printable characters with the "
                ++ [REPLACEMENT] ++ U " sign"])
    else Some (r, transforms)
  | None => None
  end.

(** [displayable_body]; [None] when it raises. *)
Definition displayable_body (msg : Message)
  : option (slot unicode * list unicode) :=
  match body msg with
  | NoneValue => Some (NoneValue, [])
  | Unparseable => Some (Unparseable, [])
  | Okay raw =>
    match body_text msg raw with
    | Some (r, transforms) =>
      if limit <? N.of_nat (length r)
      then Some (Okay (firstn (N.to_nat limit) r),
                 transforms ++
                 [U "taking the first " ++ decimal limit ++ U " characters"])
      else Some (Okay r, transforms)
    | None => None
    end
  end.

(** *** [TextReport] *)

(** [TextReport.render_unparseable]; the marker line is a [str] literal of
    ASCII characters, which [write] encodes to the same bytes. *)
Definition render_unparseable {A} (node : slot A) : M bool :=
  match node with
  | Unparseable => write_more (nl ++ U "-- (unparseable)" ++ nl) ;; ret true
  | _ => ret false
  end.

(** [TextReport.render_notices], given [node.complaints]. *)
Definition render_notices (node_complaints : option (list complaint)) : M unit :=
  for_each (or_empty node_complaints)
    (fun '(notice_id, ctx) =>
       match notices env notice_id with
       | Some the_notice => write_more (notice_to_text the_notice ctx)
       | None => raise
       end).

(** [TextReport.render_request_line] *)
Definition render_request_line (req : Request) : M unit :=
  write_more (U ">> " ++ text (method req) ++ U " " ++ text (target req)
              ++ U " " ++ text (version (request_message req)) ++ nl).

(** [TextReport.render_status_line] *)
Definition render_status_line (resp : Response) : M unit :=
  write_more (U "<< " ++ text (version (response_message resp)) ++ U " "
              ++ decimal (status_value (status resp)) ++ U " "
              ++ utf8_decode Replace (str_bytes (reason resp)) ++ nl).

Definition entry_line (entry : HeaderEntry) : unicode :=
  U "++ " ++ text (name entry) ++ U ": "
  ++ ascii_decode Ignore (str_bytes (value entry)) ++ nl.

(** [TextReport.render_message] *)
Definition render_message (msg : Message) : M unit :=
  for_each (header_entries msg) (fun entry => write (entry_line entry)) ;;
  match body msg with
  | Unparseable => write (nl ++ U "++ (body is unparseable)" ++ nl)
  | Okay {| str_bytes := (_ :: _) as raw |} =>
    write (nl ++ U "++ (" ++ decimal (N.of_nat (length raw))
           ++ U " bytes of payload body not shown)" ++ nl)
  | _ => ret tt
  end ;;
  for_each (or_empty (trailer_entries msg)) (fun entry => write (entry_line entry)) ;;
  render_notices (complaints msg).

(** The body of the loop over the responses in
    [TextReport.render_connection]. *)
Definition render_response_slot (resp : slot Response) : M unit :=
  unparseable <- render_unparseable resp ;;
  if negb unparseable
  then match resp with
       | Okay resp =>
         render_status_line resp ;; render_message (response_message resp)
       | _ => raise
       end
  else ret tt.

(** The body of the loop over the exchanges in
    [TextReport.render_connection]. *)
Definition render_exchange (exch : Exchange) : M unit :=
  write_more (U "================================" ++ nl) ;;
  render_notices (exchange_complaints exch) ;;
  match request exch with
  | NoneValue => ret tt
  | req =>
    unparseable <- render_unparseable req ;;
    if negb unparseable
    then match req with
         | Okay req => render_request_line req ;; render_message (request_message req)
         | _ => raise
         end
    else ret tt
  end ;;
  for_each (or_empty (responses exch)) render_response_slot.

(** [TextReport.render_connection] *)
Definition render_connection (connection : Connection) : M unit :=
  for_each (exchanges connection) render_exchange ;;
  match unparsed_inbound connection with
  | (_ :: _) as inbound =>
    write_more (U "++ " ++ decimal (N.of_nat (length inbound))
                ++ U " unparsed bytes remaining on the request stream" ++ nl)
  | [] => ret tt
  end ;;
  match unparsed_outbound connection with
  | (_ :: _) as outbound =>
    write (U "++ " ++ decimal (N.of_nat (length outbound))
           ++ U " unparsed bytes remaining on the response stream" ++ nl)
  | [] => ret tt
  end.

(** [TextReport.render_all] *)
Definition render_all (connections : list Connection) : M unit :=
  for_each connections render_connection.

(** *** Hypertext

    A function that creates elements returns those it adds to the element
    opened by the enclosing [with]; [H.tag(...)] is [Element], and a [with]
    block is an element holding what its body adds. *)

Definition kw (key value : unicode) : unicode * unicode := (key, value).

Definition _class (value : unicode) := kw (U "_class") value.
Definition __inline := kw (U "__inline") (U "True").

(** [H.span(s)] and the like: an element holding a string. *)
Definition holding (tag : unicode) (kwargs : list (unicode * unicode))
           (s : unicode) : node :=
  Element tag kwargs [Text s].

(** [render_known] *)
Definition render_known (obj : atom) : list node :=
  let cls := U "known known-" ++ type_name (atom_obj obj) in
  let extra :=
    match known_title env obj with
    | Some (c :: cs) => [kw (U "title") (c :: cs)]
    | _ => []
    end in
  match known_citation env obj with
  | Some cite =>
    [holding (U "a")
       ([_class cls; kw (U "href") (url cite); kw (U "target") (U "_blank")]
        ++ extra)
       (text obj)]
  | None => [holding (U "span") ([_class cls] ++ extra) (text obj)]
  end.

(** [piece_to_html]; the inner loop is [pieces_to_html]. *)
Fixpoint piece_to_html (p : piece) (ctx : context) : list node :=
  let pieces :=
    fix pieces (ps : list piece) : list node :=
      match ps with
      | [] => []
      | q :: rest => piece_to_html q ctx ++ pieces rest
      end in
  match p with
  | Ref get_contents resolve =>
    let target := resolve ctx in
    [Element (U "span")
       [kw (U "data_ref_to") (join (U ", ") (reference_targets target))]
       (pieces (get_contents ctx))]
  | Citation contents info =>
    Element (U "cite") []
      [holding (U "a") [kw (U "href") (url info); kw (U "target") (U "_blank")]
         (text (cite_atom info))]
    :: match contents with
       | _ :: _ =>
         [holding (U "span") [] (U ": ");
          Element (U "q") [kw (U "cite") (url info)] (pieces contents)]
       | [] => []
       end
  | WithContents contents => pieces contents
  | Parametrized item => piece_to_html item ctx
  | WithName its_name => piece_to_html its_name ctx
  | Leaf a =>
    if is_known env a then render_known a
    else [holding (U "span") [] (text a)]
  end.

(** [pieces_to_html] *)
Definition pieces_to_html (pieces : list piece) (ctx : context) : list node :=
  concat (map (fun p => piece_to_html p ctx) pieces).

(** [notice_to_html] *)
Definition notice_to_html (the_notice : Notice) (ctx : context)
           (for_example : bool) : list node :=
  [Element (U "div") [_class (U "notice notice-" ++ severity the_notice)]
     (Element (U "p") [_class (U "notice-heading"); __inline]
        ((if negb for_example
          then [Element (U "span") [_class (U "notice-info")]
                  [holding (U "span") [_class (U "notice-ident")]
                     (decimal (ident the_notice));
                   holding (U "span") [] (U " ");
                   holding (U "span")
                     [_class (U "notice-severity");
                      kw (U "title") (severity the_notice)]
                     (severity_short the_notice)];
                holding (U "span") [] (U " ")]
          else [])
         ++ [Element (U "span") [_class (U "notice-title")]
               (pieces_to_html (title the_notice) ctx)])
      :: map (fun para =>
                Element (U "p") [_class (U "notice-para"); __inline]
                  (pieces_to_html para ctx))
             (explanation the_notice))].

(** Elements that may fail to be built: [None] when a call raised. *)
Definition html := option (list node).

Definition then_html (a b : html) : html :=
  match a, b with
  | Some x, Some y => Some (x ++ y)
  | _, _ => None
  end.

(** [with H.tag(...): content] *)
Definition within (tag : unicode) (kwargs : list (unicode * unicode))
           (content : html) : html :=
  match content with
  | Some inner => Some [Element tag kwargs inner]
  | None => None
  end.

Fixpoint for_html {A} (xs : list A) (body : A -> html) : html :=
  match xs with
  | [] => Some []
  | x :: rest => then_html (body x) (for_html rest body)
  end.

(** [HTMLReport.render_notices] *)
Definition html_render_notices (the_complaints : option (list complaint)) : html :=
  match or_empty the_complaints with
  | [] => Some []
  | (_ :: _) as the_complaints =>
    within (U "div") [_class (U "notices")]
      (for_html the_complaints
         (fun '(notice_ident, ctx) =>
            match notices env notice_ident with
            | Some n => Some (notice_to_html n ctx false)
            | None => None
            end))
  end.

(** [HTMLReport.render_annotated] *)
Definition render_annotated (pieces : list annotated) : list node :=
  map (fun piece =>
         match piece with
         | AnnotatedStr s =>
           Element (U "span")
             (_class (U "annotated-piece") :: for_object (str_obj s) [])
             [holding (U "span") []
                (printable (utf8_decode Ignore (str_bytes s)))]
         | AnnotatedKnown a =>
           Element (U "span")
             (_class (U "annotated-piece") :: for_object (atom_obj a) [])
             (render_known a)
         end) pieces.

(** [message.annotations.get(key)] *)
Fixpoint annotations_get (annotations : list ((bool * nat) * list annotated))
         (key : bool * nat) : option (list annotated) :=
  match annotations with
  | [] => None
  | ((from_trailer, i), pieces) :: rest =>
    if Bool.eqb from_trailer (fst key) && Nat.eqb i (snd key)
    then Some pieces
    else annotations_get rest key
  end.

(** The body of the loop of [HTMLReport.render_header_entries]. *)
Definition render_header_entry (message : Message) (from_trailer : bool)
           (i : nat) (entry : HeaderEntry) : node :=
  Element (U "div") (__inline :: for_object (entry_obj entry) [])
    [Element (U "span") (for_object (atom_obj (name entry)) [])
       (render_known (name entry));
     holding (U "span") [] (U ": ");
     Element (U "span") (for_object (str_obj (value entry)) [])
       match annotations_get (annotations message) (from_trailer, i) with
       | Some annotated_value => render_annotated annotated_value
       | None =>
         [holding (U "span") []
            (printable (utf8_decode Ignore (str_bytes (value entry))))]
       end].

(** [enumerate(xs)], counting from [start]. *)
Fixpoint enumerate {A} (start : nat) (xs : list A) : list (nat * A) :=
  match xs with
  | [] => []
  | x :: rest => (start, x) :: enumerate (S start) rest
  end.

(** [HTMLReport.render_header_entries] *)
Definition render_header_entries (message : Message)
           (entries : list HeaderEntry) (from_trailer : bool) : list node :=
  map (fun '(i, entry) => render_header_entry message from_trailer i entry)
      (enumerate 0 entries).

(** [HTMLReport.render_message]; it raises when [displayable_body] does. *)
Definition html_render_message (msg : Message) : html :=
  match displayable_body msg with
  | None => None
  | Some (shown, transforms) =>
    Some
      (render_header_entries msg (header_entries msg) false
       ++ match shown, body msg with
          | Unparseable, _ =>
            [Element (U "div") [_class (U "review-block")]
               [holding (U "p") [_class (U "hint")]
                  (U "Payload body is unavailable.")]]
          | Okay ((_ :: _) as shown), Okay raw =>
            [Element (U "div") (for_object (str_obj raw) (U "review-block"))
               (match transforms with
                | _ :: _ =>
                  [holding (U "p") [_class (U "hint")]
                     (U "Payload body after " ++ nicely_join env transforms
                      ++ U ":")]
                | [] => []
                end
                ++ [holding (U "div") [_class (U "payload-body")] shown])]
          | _, _ => []
          end
       ++ match trailer_entries msg with
          | Some ((_ :: _) as entries) =>
            [Element (U "div") [_class (U "review-block")]
               (holding (U "p") [_class (U "hint")]
                  (U "Header fields from the chunked trailer:")
                :: render_header_entries msg entries true)]
          | _ => []
          end)
  end.

(** [HTMLReport.render_request] *)
Definition render_request (req : slot Request) : html :=
  match req with
  | Unparseable => Some [holding (U "p") [_class (U "hint")] (U "unparseable request")]
  | NoneValue => None
  | Okay req =>
    within (U "div") (for_object (message_obj (request_message req)) [])
      (then_html
         (within (U "div") [_class (U "review")]
            (then_html
               (Some
                  [holding (U "h2") [] (U "Request");
                   Element (U "div") [_class (U "request-line"); __inline]
                     [Element (U "span") (for_object (atom_obj (method req)) [])
                        (render_known (method req));
                      holding (U "span") [] (U " ");
                      holding (U "span")
                        (_class (U "request-target")
                         :: for_object (atom_obj (target req)) [])
                        (text (target req));
                      holding (U "span") [] (U " ");
                      holding (U "span")
                        (for_object (atom_obj (version (request_message req))) [])
                        (text (version (request_message req)))]])
               (html_render_message (request_message req))))
         (then_html
            (html_render_notices (collect_complaints (request_message req)))
            (Some [Element (U "br") [_class (U "clear")] []])))
  end.

(** [HTMLReport.render_response] *)
Definition render_response (resp : slot Response) : html :=
  match resp with
  | Unparseable => Some [holding (U "p") [_class (U "hint")] (U "unparseable response")]
  | NoneValue => None
  | Okay resp =>
    within (U "div") (for_object (message_obj (response_message resp)) [])
      (then_html
         (within (U "div") [_class (U "review")]
            (then_html
               (Some
                  [holding (U "h2") [] (U "Response");
                   Element (U "div") [_class (U "status-line"); __inline]
                     [holding (U "span")
                        (for_object (atom_obj (version (response_message resp))) [])
                        (text (version (response_message resp)));
                      holding (U "span") [] (U " ");
                      Element (U "span") (for_object (status_obj (status resp)) [])
                        (render_known (atom_of_status (status resp))
                         ++ [holding (U "span") [] (U " ");
                             holding (U "span")
                               (for_object (str_obj (reason resp)) [])
                               (printable
                                  (utf8_decode Ignore (str_bytes (reason resp))))])]])
               (html_render_message (response_message resp))))
         (then_html
            (html_render_notices (collect_complaints (response_message resp)))
            (Some [Element (U "br") [_class (U "clear")] []])))
  end.

(** The body of the loop of [HTMLReport.render_connection]. *)
Definition html_render_exchange (exch : Exchange) : html :=
  within (U "div") (for_object (exchange_obj exch) [])
    (then_html (html_render_notices (exchange_complaints exch))
       (then_html
          match request exch with
          | NoneValue => Some []
          | req => render_request req
          end
          (for_html (or_empty (responses exch)) render_response))).

(** [HTMLReport.render_connection] *)
Definition html_render_connection (conn : Connection) : html :=
  then_html (for_html (exchanges conn) html_render_exchange)
    (Some
       (match unparsed_inbound conn with
        | (_ :: _) as inbound =>
          [holding (U "p") [_class (U "unparsed inbound")]
             (decimal (N.of_nat (length inbound))
              ++ U " unparsed bytes remaining on the request stream")]
        | [] => []
        end
        ++ match unparsed_outbound conn with
           | (_ :: _) as outbound =>
             [holding (U "p") [_class (U "unparsed outbound")]
                (decimal (N.of_nat (length outbound))
                 ++ U " unparsed bytes remaining on the response stream")]
           | [] => []
           end)).

(** The report object: the output file and [self.document]. *)
Record HTMLReport := mkHTMLReport {
  html_outfile : list bytes;
  the_document : document
}.

(** [_include_stylesheet] and [_include_scripts] *)
Definition _include_stylesheet : list node :=
  [Element (U "link")
     [kw (U "rel") (U "stylesheet"); kw (U "href") (U "report.css");
      kw (U "type") (U "text/css")] []].

Definition _include_scripts : list node :=
  [Element (U "script")
     [kw (U "src") (U "https://code.jquery.com/jquery-1.11.3.js");
      kw (U "type") (U "text/javascript")] [];
   Element (U "script")
     [kw (U "src") (U "report.js"); kw (U "type") (U "text/javascript")] []].

(** [HTMLReport.__init__] *)
Definition HTMLReport_init (out : list bytes) : HTMLReport :=
  {| html_outfile := out;
     the_document :=
       {| document_title := U "HTTPolice report";
          head :=
            Element (U "meta")
              [kw (U "http_equiv") (U "Content-Type");
               kw (U "content") (U "text/html; charset=utf-8")] []
            :: _include_stylesheet ++ _include_scripts;
          document_body := [] |} |}.

(** [HTMLReport.dump] *)
Definition dump (self : HTMLReport) : HTMLReport :=
  {| html_outfile :=
       html_outfile self ++ [utf8_encode (document_render env (the_document self))];
     the_document := the_document self |}.

(** What the loop of [HTMLReport.render_all] adds to the document. *)
Definition html_render_connections (connections : list Connection) : html :=
  for_html (enumerate 0 connections)
    (fun '(i, conn) =>
       within (U "div") (for_object (connection_obj conn) [])
         (then_html
            (Some (if Nat.ltb 1 (length connections)
                   then [holding (U "h1") []
                           (U "Connection " ++ decimal (N.of_nat (i + 1)))]
                   else []))
            (html_render_connection conn))).

(** [HTMLReport.render_all] *)
Definition html_render_all (connections : list Connection) (self : HTMLReport)
  : option HTMLReport :=
  match html_render_connections connections with
  | Some added =>
    Some (dump {| html_outfile := html_outfile self;
                  the_document :=
                    {| document_title := document_title (the_document self);
                       head := head (the_document self);
                       document_body :=
                         document_body (the_document self) ++ added |} |})
  | None => None
  end.

End Model.

(** [msg] with another body, and with another declared charset. *)
Definition with_body {context} (b : slot pystr) (msg : @Message context) : Message :=
  {| message_obj := message_obj msg;
     version := version msg;
     header_entries := header_entries msg;
     trailer_entries := trailer_entries msg;
     body := b;
     decoded_body := decoded_body msg;
     transfer_encoding := transfer_encoding msg;
     content_encoding := content_encoding msg;
     body_charset := body_charset msg;
     annotations := annotations msg;
     complaints := complaints msg;
     collect_complaints := collect_complaints msg |}.

Definition with_body_charset {context} (charset : option unicode)
           (msg : @Message context) : Message :=
  {| message_obj := message_obj msg;
     version := version msg;
     header_entries := header_entries msg;
     trailer_entries := trailer_entries msg;
     body := body msg;
     decoded_body := decoded_body msg;
     transfer_encoding := transfer_encoding msg;
     content_encoding := content_encoding msg;
     body_charset := charset;
     annotations := annotations msg;
     complaints := complaints msg;
     collect_complaints := collect_complaints msg |}.

(** The note of the last step of the body pipeline. *)
Definition truncation_note : unicode := U "taking the first 5000 characters".

(** ** A small report

    One connection with one exchange: a GET request with two header entries
    and no body, answered by a 200 response that carries one complaint.  The
    contexts of complaints are of type [unit]. *)
Module Sample.

Definition obj (type : string) (address : N) : object :=
  {| type_name := U type; id := address |}.

Definition an_atom (type : string) (address : N) (s : string) : atom :=
  {| atom_obj := obj type address; text := U s |}.

Definition a_str (address : N) (s : bytes) : pystr :=
  {| str_obj := obj "str" address; str_bytes := s |}.

Definition host : HeaderEntry :=
  {| entry_obj := obj "HeaderEntry" 101;
     name := an_atom "FieldName" 102 "Host";
     value := a_str 103 (B "example.com") |}.

Definition user_agent : HeaderEntry :=
  {| entry_obj := obj "HeaderEntry" 104;
     name := an_atom "FieldName" 105 "User-Agent";
     value := a_str 106 (B "demo") |}.

(** A value with the two bytes of U+00E9 in UTF-8. *)
Definition x_name : HeaderEntry :=
  {| entry_obj := obj "HeaderEntry" 107;
     name := an_atom "FieldName" 108 "X-Name";
     value := a_str 109 [xc3; xa9] |}.

Definition the_notice : @Notice unit :=
  {| ident := 1234;
     severity := U "error";
     severity_short := U "E";
     title := [Leaf (an_atom "unicode" 201 "Something is wrong")];
     explanation := [[Leaf (an_atom "unicode" 202 "See the response.")]] |}.

Definition plain_message (address : N) (entries : list HeaderEntry)
           (the_body : slot pystr) (its_complaints : option (list (N * unit)))
  : @Message unit :=
  {| message_obj := obj "Message" address;
     version := an_atom "HTTPVersion" (address + 1) "HTTP/1.1";
     header_entries := entries;
     trailer_entries := None;
     body := the_body;
     decoded_body :=
       match the_body with
       | Okay raw => Okay (str_bytes raw)
       | Unparseable => Unparseable
       | NoneValue => NoneValue
       end;
     transfer_encoding := false;
     content_encoding := false;
     body_charset := None;
     annotations := [];
     complaints := its_complaints;
     collect_complaints := its_complaints |}.

Definition get : @Request unit :=
  {| method := an_atom "Method" 301 "GET";
     target := an_atom "unicode" 302 "/";
     request_message := plain_message 310 [host; user_agent] NoneValue None |}.

Definition ok : @Response unit :=
  {| status := {| status_obj := obj "StatusCode" 401; status_value := 200 |};
     reason := a_str 402 (B "OK");
     response_message := plain_message 410 [] NoneValue (Some [(1234, tt)]) |}.

Definition exchange : @Exchange unit :=
  {| exchange_obj := obj "Exchange" 501;
     exchange_complaints := None;
     request := Okay get;
     responses := Some [Okay ok] |}.

Definition connection : @Connection unit :=
  {| connection_obj := obj "Connection" 601;
     exchanges := [exchange];
     unparsed_inbound := [];
     unparsed_outbound := [] |}.

(** An exchange whose request could not be parsed. *)
Definition broken_exchange : @Exchange unit :=
  {| exchange_obj := obj "Exchange" 502;
     exchange_complaints := None;
     request := Unparseable;
     responses := None |}.

(** Control characters other than tab, line feed and carriage return, and
    DEL, are not printable. *)
Definition printable_char (c : N) : bool :=
  (c =? 0x09) || (c =? 0x0A) || (c =? 0x0D)
  || ((0x20 <=? c) && negb (c =? 0x7F)).

(** A serialisation of the element tree, standing for [document.render]. *)
Fixpoint render_node (n : node) : unicode :=
  match n with
  | Text s => s
  | Element tag kwargs children =>
    U "<" ++ tag
    ++ concat (map (fun '(key, v) => U " " ++ key ++ U "=" ++ v) kwargs)
    ++ U ">"
    ++ (fix over (ns : list node) : unicode :=
          match ns with
          | [] => []
          | child :: rest => render_node child ++ over rest
          end) children
    ++ U "</" ++ tag ++ U ">"
  end.

Definition render_document (d : document) : unicode :=
  render_node
    (Element (U "html") []
       [Element (U "head") []
          (Element (U "title") [] [Text (document_title d)] :: head d);
        Element (U "body") [] (document_body d)]).

(** The registry knows UTF-8 and ASCII, and the codec [hex], which is no text
    encoding: decoding with it and the handler 'replace' raises. *)
Definition collaborators : @Collaborators unit :=
  {| notices := fun n => if n =? 1234 then Some the_notice else None;
     is_known := fun _ => false;
     known_citation := fun _ => None;
     known_title := fun _ => None;
     codecs_lookup :=
       fun charset =>
         if unicode_eqb charset (U "UTF-8") || unicode_eqb charset (U "utf-8")
         then Some (U "utf-8")
         else if unicode_eqb charset (U "ascii") then Some (U "ascii")
         else if unicode_eqb charset (U "hex") then Some (U "hex")
         else None;
     codec_decode := fun _ _ _ => None;
     is_printable := printable_char;
     nicely_join := join (U ", ");
     document_render := render_document |}.

(** A body of 6000 letters, and one of 6000 NUL bytes. *)
Definition letters : pystr := a_str 701 (repeat x61 (N.to_nat 6000)).
Definition nuls : pystr := a_str 702 (repeat x00 (N.to_nat 6000)).

Definition with_letters : @Message unit := plain_message 710 [] (Okay letters) None.
Definition with_nuls : @Message unit := plain_message 720 [] (Okay nuls) None.
Definition with_empty_body : @Message unit :=
  plain_message 730 [host] (Okay (a_str 731 [])) None.

(** A message with a short body. *)
Definition greeting : @Message unit :=
  plain_message 740 [] (Okay (a_str 741 (B "hello"))) None.

(** A list of a header view with two entries and one more object. *)
Definition two_items : referent :=
  PyList [HeaderView [host; user_agent]; Other (obj "Method" 301)].

Definition a_citation : citation :=
  {| cite_atom := an_atom "RFC" 801 "RFC 7230";
     url := U "https://tools.ietf.org/html/rfc7230" |}.

Definition a_quote : @piece unit :=
  Citation [Leaf (an_atom "unicode" 802 "a  sender")] a_citation.

(** A line of a transcript. *)
Definition line (s : string) : bytes := B s ++ [x0a].

End Sample.

(** ** Notions used in the statements *)

(** No two neighbours are both white space. *)
Fixpoint single_spaced (s : unicode) : bool :=
  match s with
  | [] => true
  | c :: rest =>
    match rest with
    | [] => true
    | d :: _ => negb (re_space c && re_space d) && single_spaced rest
    end
  end.

(** A method that only appends to the file: what it appends, and whether it
    raises, depends on the flag and not on what the file holds. *)
Definition appends {A} (m : M A) : Prop :=
  forall (out : list bytes) (w : bool),
    m {| outfile := out; written := w |}
    = match m {| outfile := []; written := w |} with
      | Some (a, self') =>
        Some (a, {| outfile := out ++ outfile self'; written := written self' |})
      | None => None
      end.

(** Which character a note starts with. *)
Definition first_is (c : N) (s : unicode) : bool :=
  match s with
  | x :: _ => x =? c
  | [] => false
  end.

(** What [TextReport.render_message] writes about the body, between the
    header lines and the trailer lines. *)
Definition body_summary {context} (msg : @Message context) : list bytes :=
  match body msg with
  | Unparseable => [utf8_encode (nl ++ U "++ (body is unparseable)" ++ nl)]
  | Okay {| str_bytes := (_ :: _) as raw |} =>
    [utf8_encode (nl ++ U "++ (" ++ decimal (N.of_nat (length raw))
                  ++ U " bytes of payload body not shown)" ++ nl)]
  | _ => []
  end.

(** ** The examples of notices *)

(** The document that [render_notice_examples] builds. *)
Definition notice_examples_document {context : Type}
           (env : @Collaborators context) (examples : list (Notice * context))
  : document :=
  {| document_title := U "HTTPolice notice examples";
     head :=
       Element (U "meta")
         [kw (U "http_equiv") (U "Content-Type");
          kw (U "content") (U "text/html; charset=utf-8")] []
       :: _include_stylesheet;
     document_body :=
       [holding (U "h1") [] (U "HTTPolice notice examples");
        Element (U "table") [_class (U "notice-examples")]
          [Element (U "thead") []
             [Element (U "tr") []
                [holding (U "th") [] (U "ID");
                 holding (U "th") [] (U "severity");
                 holding (U "th") [] (U "example")]];
           Element (U "tbody") []
             (map (fun '(the_notice, ctx) =>
                     Element (U "tr") []
                       [holding (U "td") [] (decimal (ident the_notice));
                        holding (U "td") [] (severity the_notice);
                        Element (U "td") []
                          (notice_to_html env the_notice ctx true)])
                  examples)]] |}.

(** [render_notice_examples] *)
Definition render_notice_examples {context : Type}
           (env : @Collaborators context) (examples : list (Notice * context))
  : bytes :=
  utf8_encode (document_render env (notice_examples_document env examples)).

(** ** More notions used in the statements *)

(** The characters an element shows: its strings, in document order. *)
Fixpoint node_text (n : node) : unicode :=
  match n with
  | Text s => s
  | Element _ _ children =>
    (fix over (ns : list node) : unicode :=
       match ns with
       | [] => []
       | child :: rest => node_text child ++ over rest
       end) children
  end.

Definition texts (ns : list node) : unicode := concat (map node_text ns).

(** No citation is met when the piece is rendered in the context. *)
Fixpoint citation_free {context : Type} (p : @piece context) (ctx : context)
  : bool :=
  let all :=
    fix all (ps : list piece) : bool :=
      match ps with
      | [] => true
      | q :: rest => citation_free q ctx && all rest
      end in
  match p with
  | Ref get_contents _ => all (get_contents ctx)
  | Citation _ _ => false
  | WithContents contents => all contents
  | Parametrized item => citation_free item ctx
  | WithName its_name => citation_free its_name ctx
  | Leaf _ => true
  end.

Definition citation_free_notice {context : Type} (the_notice : @Notice context)
           (ctx : context) : bool :=
  forallb (fun p => citation_free p ctx) (title the_notice)
  && forallb (forallb (fun p => citation_free p ctx)) (explanation the_notice).

(** The last byte of the chunk is a line feed. *)
Definition ends_with_lf (chunk : bytes) : bool :=
  match rev chunk with
  | b :: _ => Byte.eqb b x0a
  | [] => false
  end.

Definition nonempty {A} (xs : list A) : bool :=
  match xs with
  | [] => false
  | _ :: _ => true
  end.

(** A method that, when it returns, has appended whole lines to the file and
    has set the flag if and only if it appended something. *)
Definition orderly {A} (m : M A) : Prop :=
  forall (self : TextReport) (a : A) (self' : TextReport),
    m self = Some (a, self') ->
    exists added : list bytes,
      outfile self' = outfile self ++ added
      /\ written self' = written self || nonempty added
      /\ forallb ends_with_lf added = true.

(** Did the call return? *)
Definition returned {A} (result : option A) : bool :=
  match result with
  | Some _ => true
  | None => false
  end.

(** Is the notice of the complaint in the catalog? *)
Definition in_catalog {context : Type} (env : @Collaborators context)
           (c : @complaint context) : bool :=
  returned (notices env (fst c)).

(** The value given for a keyword, the last one if it is given twice. *)
Fixpoint kwargs_get (key : unicode) (kwargs : list (unicode * unicode))
  : option unicode :=
  match kwargs with
  | [] => None
  | (k, v) :: rest =>
    match kwargs_get key rest with
    | Some later => Some later
    | None => if unicode_eqb k key then Some v else None
    end
  end.

(** The target that points to an element: [#] and its [id]. *)
Definition target_of (n : node) : option unicode :=
  match n with
  | Element _ kwargs _ =>
    match kwargs_get (U "id") kwargs with
    | Some its_id => Some (U "#" ++ its_id)
    | None => None
    end
  | Text _ => None
  end.

Definition is_digit (c : N) : bool := (0x30 <=? c) && (c <=? 0x39).

(** The heading of the connection at index [i]. *)
Definition connection_heading (i : nat) : node :=
  holding (U "h1") [] (U "Connection " ++ decimal (N.of_nat (i + 1))).

(** The document of a report after [added] was put into its body. *)
Definition report_document (added : list node) : document :=
  {| document_title := U "HTTPolice report";
     head := head (the_document (HTMLReport_init []));
     document_body := added |}.

(** The chunks of the transcript of the sample report. *)
Definition sample_transcript : list bytes :=
  [Sample.line "================================";
   Sample.line "";
   Sample.line ">> GET / HTTP/1.1";
   Sample.line "++ Host: example.com";
   Sample.line "++ User-Agent: demo";
   Sample.line "";
   Sample.line "<< HTTP/1.1 200 OK";
   Sample.line "";
   Sample.line "**** 1234 E    Something is wrong"
     ++ Sample.line "See the response."].

(** Is it [#] followed by decimal digits, at least one? *)
Definition is_anchor (t : unicode) : bool :=
  match t with
  | c :: d :: ds => (c =? 0x23) && forallb is_digit (d :: ds)
  | _ => false
  end.

(** The sample messages with the charset [hex] declared. *)
Definition hex_greeting : @Message unit :=
  with_body_charset (Some (U "hex")) Sample.greeting.

Definition hex_empty : @Message unit :=
  with_body_charset (Some (U "hex")) Sample.with_empty_body.

(** A message whose one header entry has the value C3 A9, without
    annotations, and the same with the annotation that cuts the value into
    its two bytes. *)
Definition x_message : @Message unit :=
  Sample.plain_message 750 [Sample.x_name] NoneValue None.

Definition split_message : @Message unit :=
  {| message_obj := Sample.obj "Message" 760;
     version := Sample.an_atom "HTTPVersion" 761 "HTTP/1.1";
     header_entries := [Sample.x_name];
     trailer_entries := None;
     body := NoneValue;
     decoded_body := NoneValue;
     transfer_encoding := false;
     content_encoding := false;
     body_charset := None;
     annotations :=
       [((false, 0%nat),
         [AnnotatedStr (Sample.a_str 762 [xc3]);
          AnnotatedStr (Sample.a_str 763 [xa9])])];
     complaints := None;
     collect_complaints := None |}.

(** The characters that a piece of an annotation shows. *)
Definition annotated_text {context : Type} (env : @Collaborators context)
           (piece : annotated) : unicode :=
  match piece with
  | AnnotatedStr s =>
    map (fun c => if is_printable env c then c else 0xFFFD)
        (utf8_decode Ignore (str_bytes s))
  | AnnotatedKnown a => text a
  end.

(** * Properties *)

(** ** The output sink *)

Lemma bind_run {A B} (m : M A) (k : A -> M B) (self : TextReport) :
  (x <- m ;; k x) self
  = match m self with
    | Some (a, self') => k a self'
    | None => None
    end.
Proof. reflexivity. Qed.

Lemma write_run (s : unicode) (out : list bytes) (w : bool) :
  write s {| outfile := out; written := w |}
  = Some (tt, {| outfile := out ++ [utf8_encode s]; written := true |}).
Proof. reflexivity. Qed.

Lemma write_more_run (s : unicode) (out : list bytes) (w : bool) :
  write_more s {| outfile := out; written := w |}
  = Some (tt, {| outfile := out ++ (if w then [utf8_encode nl] else [])
                                ++ [utf8_encode s];
                 written := true |}).
Proof.
  destruct w; unfold write_more, when, bind, write, ret; cbn [written outfile].
  - now rewrite <- app_assoc.
  - reflexivity.
Qed.

(** Once something is written, every further [write_more] puts a separator
    and then its string. *)
Lemma write_more_after_first (ss : list unicode) (out : list bytes) :
  for_each ss write_more {| outfile := out; written := true |}
  = Some (tt, {| outfile :=
                   out ++ flat_map (fun s => [utf8_encode nl; utf8_encode s]) ss;
                 written := true |}).
Proof.
  revert out; induction ss as [|s ss IH]; intro out; cbn [for_each flat_map].
  - now rewrite app_nil_r.
  - rewrite bind_run, write_more_run, IH.
    now rewrite <- !app_assoc.
Qed.

Lemma intersperse_cons {A} (sep x : A) (xs : list A) :
  intersperse sep (x :: xs) = x :: flat_map (fun y => [sep; y]) xs.
Proof.
  revert x; induction xs as [|y xs IH]; intro x; [reflexivity|].
  change (intersperse sep (x :: y :: xs)) with (x :: sep :: intersperse sep (y :: xs)).
  now rewrite IH.
Qed.

(** C3: on a fresh text report, the chunks that any sequence of [write_more]
    calls hands to the file are the strings with the separator between
    neighbours only: none before the first string, never two in a row.
    Writing "A" and then "B" leaves exactly the three bytes of "A\nB". *)
Theorem C3_write_more_separators :
  (forall (out : list bytes) (ss : list unicode),
      output_of (for_each ss write_more) (TextReport_init out)
      = Some (out ++ intersperse (utf8_encode nl) (map utf8_encode ss)))
  /\ option_map getvalue
       (output_of (write_more (U "A") ;; write_more (U "B")) (TextReport_init []))
     = Some [x41; x0a; x42].
Proof.
  split; [|reflexivity].
  intros out [|s ss]; unfold output_of, TextReport_init.
  - cbn. now rewrite app_nil_r.
  - cbn [for_each]. rewrite bind_run, write_more_run, write_more_after_first.
    cbn [map outfile app]. rewrite intersperse_cons, <- app_assoc. cbn [app].
    do 2 f_equal. f_equal.
    induction ss as [|s' ss IH]; [reflexivity|].
    cbn [flat_map map app]. now rewrite IH.
Qed.

(** ** Reference targets *)

Lemma reference_targets_list (items : list referent) :
  reference_targets (PyList items) = concat (map reference_targets items).
Proof.
  induction items as [|item rest IH]; [reflexivity|].
  cbn [map concat]. rewrite <- IH. reflexivity.
Qed.

(** C6 (as amended): [reference_targets] of a list is the concatenation of
    the targets of its items, in order, so it sends the concatenation of two
    lists to the concatenation of their targets; a header view gives one
    anchor per entry, in order; any other object gives its own anchor alone.
    A list of two objects that are neither lists nor header views gives
    exactly their two anchors. *)
Theorem C6_reference_targets_homomorphism :
  (forall items : list referent,
      reference_targets (PyList items) = concat (map reference_targets items))
  /\ (forall xs ys : list referent,
         reference_targets (PyList (xs ++ ys))
         = reference_targets (PyList xs) ++ reference_targets (PyList ys))
  /\ (forall entries : list HeaderEntry,
         reference_targets (HeaderView entries)
         = map (fun entry => anchor (entry_obj entry)) entries
         /\ length (reference_targets (HeaderView entries)) = length entries)
  /\ (forall o : object, reference_targets (Other o) = [anchor o])
  /\ (forall a b : object,
         reference_targets (PyList [Other a; Other b]) = [anchor a; anchor b]).
Proof.
  split; [exact reference_targets_list|].
  split.
  { intros xs ys. rewrite !reference_targets_list, map_app. apply concat_app. }
  split.
  { intro entries. split; [reflexivity|]. cbn [reference_targets]. apply length_map. }
  split; intros; reflexivity.
Qed.

(** C6, the claim as stated fails: a list of two items, the first of them a
    header view with two entries, has three targets. *)
Lemma C6_two_items_three_targets :
  reference_targets Sample.two_items = [U "#101"; U "#104"; U "#301"]
  /\ length (reference_targets Sample.two_items) = 3%nat.
Proof. split; reflexivity. Qed.

(** ** Pieces *)

Section Pieces.

Context {context : Type}.
Variable env : @Collaborators context.

Lemma pieces_to_text_cons (p : piece) (ps : list piece) (ctx : context) :
  pieces_to_text (p :: ps) ctx = piece_to_text p ctx ++ pieces_to_text ps ctx.
Proof. reflexivity. Qed.

Lemma pieces_to_html_cons (p : piece) (ps : list piece) (ctx : context) :
  pieces_to_html env (p :: ps) ctx
  = piece_to_html env p ctx ++ pieces_to_html env ps ctx.
Proof. reflexivity. Qed.

(** The loop inside [piece_to_text] is [pieces_to_text]. *)
Lemma piece_to_text_citation (contents : list piece) (info : citation)
      (ctx : context) :
  piece_to_text (Citation contents info) ctx
  = match collapse_spaces (strip (pieces_to_text contents ctx)) with
    | [] => text (cite_atom info)
    | (_ :: _) as quote =>
      [0x201C] ++ quote ++ [0x201D] ++ U " (" ++ text (cite_atom info) ++ U ")"
    end.
Proof.
  cbn [piece_to_text].
  match goal with
  | |- context [collapse_spaces (strip (?loop contents))] =>
    replace (loop contents) with (pieces_to_text contents ctx)
  end.
  - destruct (collapse_spaces _); reflexivity.
  - induction contents as [|q rest IH]; [reflexivity|].
    rewrite pieces_to_text_cons, IH. reflexivity.
Qed.

Lemma piece_to_html_citation (contents : list piece) (info : citation)
      (ctx : context) :
  piece_to_html env (Citation contents info) ctx
  = Element (U "cite") []
      [holding (U "a") [kw (U "href") (url info); kw (U "target") (U "_blank")]
         (text (cite_atom info))]
    :: match contents with
       | [] => []
       | _ :: _ =>
         [holding (U "span") [] (U ": ");
          Element (U "q") [kw (U "cite") (url info)]
            (pieces_to_html env contents ctx)]
       end.
Proof.
  cbn [piece_to_html].
  match goal with
  | |- context [Element _ _ (?loop contents)] =>
    replace (loop contents) with (pieces_to_html env contents ctx)
  end.
  - reflexivity.
  - induction contents as [|q rest IH]; [reflexivity|].
    rewrite pieces_to_html_cons, IH. reflexivity.
Qed.

End Pieces.

Lemma sub_spaces_single_spaced (s : unicode) :
  single_spaced (sub_spaces false s) = true
  /\ single_spaced (0x20 :: sub_spaces true s) = true.
Proof.
  induction s as [|c rest [IH1 IH2]]; [split; reflexivity|].
  cbn [sub_spaces]. destruct (re_space c) eqn:Hc.
  - split; assumption.
  - assert (H : single_spaced (c :: sub_spaces false rest) = true).
    { cbn [single_spaced]. destruct (sub_spaces false rest) eqn:E; [reflexivity|].
      rewrite Hc. cbn [andb negb]. exact IH1. }
    split; [exact H|].
    change (single_spaced (0x20 :: c :: sub_spaces false rest))
      with (negb (re_space 0x20 && re_space c)
            && single_spaced (c :: sub_spaces false rest)).
    rewrite Hc, H. reflexivity.
Qed.

Lemma sub_spaces_only_spaces (in_run : bool) (s : unicode) :
  Forall (fun c => re_space c = true -> c = 0x20) (sub_spaces in_run s).
Proof.
  revert in_run; induction s as [|c rest IH]; intro in_run; cbn [sub_spaces].
  - constructor.
  - destruct (re_space c) eqn:Hc.
    + destruct in_run; [apply IH|]. constructor; [reflexivity|apply IH].
    + constructor; [|apply IH]. intro H. congruence.
Qed.

Lemma sub_spaces_keeps_words (in_run : bool) (s : unicode) :
  filter (fun c => negb (re_space c)) (sub_spaces in_run s)
  = filter (fun c => negb (re_space c)) s.
Proof.
  revert in_run; induction s as [|c rest IH]; intro in_run; cbn [sub_spaces].
  - reflexivity.
  - cbn [filter]. destruct (re_space c) eqn:Hc; cbn [negb].
    + destruct in_run; [apply IH|]. cbn [filter].
      change (re_space 0x20) with true. cbn [negb]. apply IH.
    + cbn [filter]. rewrite Hc. cbn [negb]. f_equal. apply IH.
Qed.

(** C2 (as amended): for a citation, the text backend gives the quoted
    contents first, stripped and with every run of white space collapsed to
    one space, in quotation marks, followed by the bibliographic entry in
    parentheses, and the entry alone when the quoted text is empty; the
    hypertext backend gives the bibliographic link first, followed by a
    colon and the quoted contents when there are contents, and the link
    alone when there are none. *)
Theorem C2_citation_text_then_entry_html_entry_then_text
        {context : Type} (env : @Collaborators context)
        (contents : list piece) (info : citation) (ctx : context) :
  let quote := collapse_spaces (strip (pieces_to_text contents ctx)) in
  piece_to_text (Citation contents info) ctx
  = match quote with
    | [] => text (cite_atom info)
    | _ :: _ =>
      [0x201C] ++ quote ++ [0x201D] ++ U " (" ++ text (cite_atom info) ++ U ")"
    end
  /\ single_spaced quote = true
  /\ Forall (fun c => re_space c = true -> c = 0x20) quote
  /\ filter (fun c => negb (re_space c)) quote
     = filter (fun c => negb (re_space c)) (strip (pieces_to_text contents ctx))
  /\ piece_to_html env (Citation contents info) ctx
     = Element (U "cite") []
         [holding (U "a")
            [kw (U "href") (url info); kw (U "target") (U "_blank")]
            (text (cite_atom info))]
       :: match contents with
          | [] => []
          | _ :: _ =>
            [holding (U "span") [] (U ": ");
             Element (U "q") [kw (U "cite") (url info)]
               (pieces_to_html env contents ctx)]
          end.
Proof.
  intro quote. subst quote.
  split; [|split; [|split; [|split]]].
  - rewrite piece_to_text_citation. destruct (collapse_spaces _); reflexivity.
  - apply sub_spaces_single_spaced.
  - apply sub_spaces_only_spaces.
  - apply sub_spaces_keeps_words.
  - apply piece_to_html_citation.
Qed.

(** C2, the claim as stated fails for the hypertext backend: the first
    element of a citation with contents is the bibliographic link, and the
    quotation comes last. *)
Lemma C2_html_citation_link_first :
  piece_to_html Sample.collaborators Sample.a_quote tt
  = [Element (U "cite") []
       [holding (U "a")
          [kw (U "href") (U "https://tools.ietf.org/html/rfc7230");
           kw (U "target") (U "_blank")]
          (U "RFC 7230")];
     holding (U "span") [] (U ": ");
     Element (U "q") [kw (U "cite") (U "https://tools.ietf.org/html/rfc7230")]
       [holding (U "span") [] (U "a  sender")]]
  /\ piece_to_text Sample.a_quote tt
     = [0x201C] ++ U "a sender" ++ [0x201D] ++ U " (RFC 7230)".
Proof. split; reflexivity. Qed.

(** ** Codecs *)

Lemma byte_of_to_N (b : byte) : byte_of (Byte.to_N b) = b.
Proof.
  unfold byte_of. rewrite N.mod_small.
  - now rewrite Byte.of_to_N.
  - pose proof (Byte.to_N_bounded b). lia.
Qed.

Lemma utf8_encode_app (s t : unicode) :
  utf8_encode (s ++ t) = utf8_encode s ++ utf8_encode t.
Proof. unfold utf8_encode. now rewrite flat_map_app, map_app. Qed.

Lemma utf8_encode_cons_ascii (c : N) (s : unicode) :
  c < 0x80 -> utf8_encode (c :: s) = byte_of c :: utf8_encode s.
Proof.
  intro H. unfold utf8_encode, utf8_encode_char. cbn [flat_map].
  apply N.ltb_lt in H. rewrite H. reflexivity.
Qed.

Lemma ascii_decode_ignore (s : bytes) :
  ascii_decode Ignore s
  = map Byte.to_N (filter (fun b => Byte.to_N b <? 0x80) s).
Proof.
  induction s as [|b rest IH]; [reflexivity|].
  change (ascii_decode Ignore (b :: rest))
    with ((if Byte.to_N b <? 0x80 then [Byte.to_N b] else on_error Ignore)
          ++ ascii_decode Ignore rest).
  rewrite IH. cbn [filter].
  destruct (Byte.to_N b <? 0x80); reflexivity.
Qed.

Lemma ascii_decode_ascii (e : errors) (s : bytes) :
  Forall (fun c => c < 0x80) (ascii_decode Ignore s).
Proof.
  rewrite ascii_decode_ignore.
  induction s as [|b rest IH]; [constructor|].
  cbn [filter]. destruct (Byte.to_N b <? 0x80) eqn:Hb; [|exact IH].
  cbn [map]. constructor; [now apply N.ltb_lt|exact IH].
Qed.

(** Encoding what the ASCII codec kept gives back the bytes it kept. *)
Lemma utf8_encode_ascii_decode (s : bytes) :
  utf8_encode (ascii_decode Ignore s)
  = filter (fun b => Byte.to_N b <? 0x80) s.
Proof.
  rewrite ascii_decode_ignore.
  induction s as [|b rest IH]; [reflexivity|].
  cbn [filter]. destruct (Byte.to_N b <? 0x80) eqn:Hb; [|exact IH].
  cbn [map]. rewrite utf8_encode_cons_ascii by now apply N.ltb_lt.
  now rewrite byte_of_to_N, IH.
Qed.

(** The decoder reads ASCII bytes as they are. *)
Lemma utf8_decode_ascii (e : errors) (s : bytes) :
  Forall (fun b => Byte.to_N b < 0x80) s ->
  utf8_decode e s = map Byte.to_N s.
Proof.
  induction 1 as [|b rest Hb _ IH]; [reflexivity|].
  cbn [utf8_decode map]. unfold utf8_code_length.
  apply N.ltb_lt in Hb. rewrite Hb. now rewrite IH.
Qed.

(** ** The text report *)

(** Runs the calls at the head of a method, one after the other. *)
Ltac run :=
  repeat (first [ rewrite bind_run
                | rewrite write_more_run
                | rewrite write_run ];
          cbn [ret negb]).

Section TextReportProperties.

Context {context : Type}.
Variable env : @Collaborators context.

Lemma for_each_write_run {A} (f : A -> unicode) (xs : list A)
      (out : list bytes) (w : bool) :
  for_each xs (fun x => write (f x)) {| outfile := out; written := w |}
  = Some (tt, {| outfile := out ++ map (fun x => utf8_encode (f x)) xs;
                 written := match xs with [] => w | _ :: _ => true end |}).
Proof.
  revert out w; induction xs as [|x rest IH]; intros out w; cbn [for_each map].
  - now rewrite app_nil_r.
  - rewrite bind_run, write_run, IH, <- app_assoc.
    destruct rest; reflexivity.
Qed.

Lemma render_notices_nothing (node_complaints : option (list complaint))
      (self : TextReport) :
  or_empty node_complaints = [] ->
  render_notices env node_complaints self = Some (tt, self).
Proof. intro H. unfold render_notices. now rewrite H. Qed.

Lemma render_notices_one (notice_id : N) (ctx : context) (the_notice : Notice)
      (out : list bytes) :
  notices env notice_id = Some the_notice ->
  render_notices env (Some [(notice_id, ctx)])
                 {| outfile := out; written := true |}
  = Some (tt, {| outfile :=
                   out ++ [utf8_encode nl;
                           utf8_encode (notice_to_text the_notice ctx)];
                 written := true |}).
Proof.
  intro H. unfold render_notices. cbn [or_empty for_each].
  rewrite bind_run, H, write_more_run. reflexivity.
Qed.

(** The lines of a message without body and trailer. *)
Lemma render_message_headers_only (msg : Message) (out : list bytes) :
  body msg = NoneValue ->
  or_empty (trailer_entries msg) = [] ->
  render_message env msg {| outfile := out; written := true |}
  = render_notices env (complaints msg)
      {| outfile := out ++ map (fun e => utf8_encode (entry_line e))
                               (header_entries msg);
         written := true |}.
Proof.
  intros Hbody Htrailer. unfold render_message.
  rewrite bind_run, for_each_write_run, Hbody, bind_run. cbn [ret].
  rewrite Htrailer, bind_run. cbn [for_each ret].
  destruct (header_entries msg); reflexivity.
Qed.

(** What [render_message] hands to the file before the notices of the
    message: the header lines, the line about the body, the trailer lines. *)
Lemma render_message_run (msg : Message) (out : list bytes) (w : bool) :
  exists w' : bool,
    render_message env msg {| outfile := out; written := w |}
    = render_notices env (complaints msg)
        {| outfile :=
             out ++ map (fun e => utf8_encode (entry_line e)) (header_entries msg)
                 ++ body_summary msg
                 ++ map (fun e => utf8_encode (entry_line e))
                        (or_empty (trailer_entries msg));
           written := w' |}.
Proof.
  unfold render_message, body_summary.
  rewrite bind_run, for_each_write_run.
  destruct (body msg) as [| |[o [|b raw]]];
    rewrite bind_run; cbn [ret]; try rewrite write_run;
    rewrite bind_run, for_each_write_run;
    eexists; rewrite <- ?app_assoc; cbn [app]; rewrite ?app_nil_r; reflexivity.
Qed.

End TextReportProperties.

(** C1 (as amended): one connection with one exchange, a GET request with
    two header entries and no body, and one 200 response that has exactly
    one notice attached to it.  The text renderer writes, in this order: the
    separator line, the request line, the two header lines, the status line
    with the header lines of the response, and then the line of the notice:
    the notice of a message follows the lines of that message. *)
Theorem C1_notice_of_response_follows_status_line
        {context : Type} (env : @Collaborators context)
        (connection : Connection) (exch : Exchange)
        (req : Request) (resp : Response) (e1 e2 : HeaderEntry)
        (notice_id : N) (ctx : context) (the_notice : Notice)
        (out : list bytes) :
  exchanges connection = [exch] ->
  unparsed_inbound connection = [] ->
  unparsed_outbound connection = [] ->
  or_empty (exchange_complaints exch) = [] ->
  request exch = Okay req ->
  responses exch = Some [Okay resp] ->
  text (method req) = U "GET" ->
  text (version (request_message req)) = U "HTTP/1.1" ->
  header_entries (request_message req) = [e1; e2] ->
  body (request_message req) = NoneValue ->
  or_empty (trailer_entries (request_message req)) = [] ->
  or_empty (complaints (request_message req)) = [] ->
  text (version (response_message resp)) = U "HTTP/1.1" ->
  status_value (status resp) = 200 ->
  body (response_message resp) = NoneValue ->
  or_empty (trailer_entries (response_message resp)) = [] ->
  complaints (response_message resp) = Some [(notice_id, ctx)] ->
  notices env notice_id = Some the_notice ->
  output_of (render_all env [connection]) (TextReport_init out)
  = Some
      (out
       ++ map utf8_encode
            ([U "================================" ++ nl;
              nl;
              U ">> GET " ++ text (target req) ++ U " HTTP/1.1" ++ nl;
              U "++ " ++ text (name e1) ++ U ": "
                ++ ascii_decode Ignore (str_bytes (value e1)) ++ nl;
              U "++ " ++ text (name e2) ++ U ": "
                ++ ascii_decode Ignore (str_bytes (value e2)) ++ nl;
              nl;
              U "<< HTTP/1.1 200 "
                ++ utf8_decode Replace (str_bytes (reason resp)) ++ nl]
             ++ map entry_line (header_entries (response_message resp))
             ++ [nl;
                 U "**** " ++ decimal (ident the_notice) ++ U " "
                   ++ severity_short the_notice ++ U "    "
                   ++ strip (pieces_to_text (title the_notice) ctx) ++ nl
                   ++ join nl (map (fun para => strip (pieces_to_text para ctx))
                                   (explanation the_notice))
                   ++ nl])).
Proof.
  intros Hexchanges Hinbound Houtbound Hexch Hrequest Hresponses Hmethod
         Hreqversion Hentries Hreqbody Hreqtrailer Hreqcomplaints
         Hrespversion Hstatus Hrespbody Hresptrailer Hcomplaints Hnotice.
  unfold output_of, render_all, TextReport_init. cbn [for_each].
  unfold render_connection.
  rewrite Hexchanges, Hinbound, Houtbound. cbn [for_each].
  unfold render_exchange, render_request_line.
  rewrite Hrequest, Hresponses. cbn [or_empty for_each render_unparseable].
  unfold render_response_slot, render_status_line. cbn [render_unparseable].
  run. rewrite render_notices_nothing by assumption.
  run.
  rewrite render_message_headers_only by assumption.
  rewrite render_notices_nothing by assumption.
  run.
  rewrite render_message_headers_only by assumption.
  rewrite Hcomplaints, (render_notices_one env _ _ _ _ Hnotice).
  run. cbn [outfile].
  rewrite Hmethod, Hreqversion, Hentries, Hrespversion, Hstatus.
  cbn [ret bind outfile]. f_equal. unfold notice_to_text.
  rewrite <- !app_assoc, !map_app, map_map. reflexivity.
Qed.

(** C1 on the sample report. *)
Lemma C1_notice_of_response_follows_status_line_witness :
  output_of (render_all Sample.collaborators [Sample.connection])
            (TextReport_init [])
  = Some [Sample.line "================================";
          Sample.line "";
          Sample.line ">> GET / HTTP/1.1";
          Sample.line "++ Host: example.com";
          Sample.line "++ User-Agent: demo";
          Sample.line "";
          Sample.line "<< HTTP/1.1 200 OK";
          Sample.line "";
          Sample.line "**** 1234 E    Something is wrong"
            ++ Sample.line "See the response."].
Proof.
  exact (C1_notice_of_response_follows_status_line
           Sample.collaborators Sample.connection Sample.exchange
           Sample.get Sample.ok Sample.host Sample.user_agent
           1234 tt Sample.the_notice []
           eq_refl eq_refl eq_refl eq_refl eq_refl eq_refl eq_refl eq_refl
           eq_refl eq_refl eq_refl eq_refl eq_refl eq_refl eq_refl eq_refl
           eq_refl eq_refl).
Defined.

(** C1, the claim as stated fails: in the transcript of the sample report
    the line of the notice is the last but one, after the status line, and
    the separator is followed by the request line. *)
Lemma C1_notice_line_not_after_separator :
  option_map getvalue
    (output_of (render_all Sample.collaborators [Sample.connection])
               (TextReport_init []))
  = Some (concat [Sample.line "================================";
                  Sample.line "";
                  Sample.line ">> GET / HTTP/1.1";
                  Sample.line "++ Host: example.com";
                  Sample.line "++ User-Agent: demo";
                  Sample.line "";
                  Sample.line "<< HTTP/1.1 200 OK";
                  Sample.line "";
                  Sample.line "**** 1234 E    Something is wrong";
                  Sample.line "See the response."]).
Proof. vm_compute. reflexivity. Qed.

(** *** The unparseable marker *)

Section Unparseable.

Context {context : Type}.
Variable env : @Collaborators context.

(** Once something is written, the flag stays set. *)
Lemma for_each_keeps_written {A} (xs : list A) (body : A -> M unit) :
  (forall x self self', written self = true ->
                        body x self = Some (tt, self') -> written self' = true) ->
  forall self self', written self = true ->
                     for_each xs body self = Some (tt, self') ->
                     written self' = true.
Proof.
  intro Hbody. induction xs as [|x rest IH]; intros self self' Hw; cbn [for_each].
  - unfold ret. intro H. now inversion H; subst.
  - rewrite bind_run. destruct (body x self) as [[[] self1]|] eqn:E; [|discriminate].
    apply IH. eapply Hbody; eassumption.
Qed.

Lemma render_notices_keeps_written (node_complaints : option (list complaint))
      (self self' : TextReport) :
  written self = true ->
  render_notices env node_complaints self = Some (tt, self') ->
  written self' = true.
Proof.
  unfold render_notices. apply for_each_keeps_written.
  intros [notice_id ctx] [out w] st' _.
  destruct (notices env notice_id); [|discriminate].
  rewrite write_more_run. intro H. now inversion H.
Qed.

(** C7: when the request slot of an exchange holds the unparseable marker,
    the text renderer behaves as the program that, after the separator line
    and the notices of the exchange, writes the separator of [write_more]
    and the one line "-- (unparseable)" and goes on with the responses: no
    request line, no header lines, and no exception from this slot.  With no
    notices and no responses the exchange is the separator line followed by
    the marker. *)
Theorem C7_unparseable_request_marker (exch : Exchange) (self : TextReport) :
  request exch = Unparseable ->
  render_exchange env exch self
  = (write_more (U "================================" ++ nl) ;;
     render_notices env (exchange_complaints exch) ;;
     write nl ;;
     write (nl ++ U "-- (unparseable)" ++ nl) ;;
     for_each (or_empty (responses exch)) (render_response_slot env)) self
  /\ (or_empty (exchange_complaints exch) = [] ->
      or_empty (responses exch) = [] ->
      output_of (render_exchange env exch) self
      = Some (outfile self
              ++ (if written self then [utf8_encode nl] else [])
              ++ [utf8_encode (U "================================" ++ nl);
                  utf8_encode nl;
                  utf8_encode (nl ++ U "-- (unparseable)" ++ nl)])).
Proof.
  intro Hrequest.
  assert (Heq :
    render_exchange env exch self
    = (write_more (U "================================" ++ nl) ;;
       render_notices env (exchange_complaints exch) ;;
       write nl ;;
       write (nl ++ U "-- (unparseable)" ++ nl) ;;
       for_each (or_empty (responses exch)) (render_response_slot env)) self).
  { unfold render_exchange. rewrite Hrequest. cbn [render_unparseable].
    destruct self as [out w].
    rewrite !(bind_run (write_more _)), write_more_run.
    rewrite !(bind_run (render_notices _ _)).
    destruct (render_notices env (exchange_complaints exch) _)
      as [[[] [out1 w1]]|] eqn:E; [|reflexivity].
    apply render_notices_keeps_written in E; [|reflexivity].
    cbn [written] in E. subst w1. run. now rewrite <- app_assoc. }
  split; [exact Heq|].
  intros Hcomplaints Hresponses. unfold output_of. rewrite Heq.
  destruct self as [out w]. run.
  rewrite render_notices_nothing by assumption.
  run. rewrite Hresponses. cbn [for_each ret outfile written].
  now rewrite <- !app_assoc.
Qed.

End Unparseable.

(** C7 on the sample exchange whose request could not be parsed. *)
Lemma C7_unparseable_request_marker_witness :
  output_of (render_exchange Sample.collaborators Sample.broken_exchange)
            (TextReport_init [])
  = Some [Sample.line "================================";
          Sample.line "";
          [x0a] ++ Sample.line "-- (unparseable)"].
Proof.
  exact (proj2 (C7_unparseable_request_marker Sample.collaborators
                  Sample.broken_exchange (TextReport_init []) eq_refl)
               eq_refl eq_refl).
Defined.

(** *** The text report only appends to its file *)

Lemma appends_ret {A} (a : A) : appends (ret a).
Proof. intros out w. cbn. now rewrite app_nil_r. Qed.

Lemma appends_raise {A} : appends (@raise A).
Proof. intros out w. reflexivity. Qed.

Lemma appends_write (s : unicode) : appends (write s).
Proof. intros out w. reflexivity. Qed.

Lemma appends_write_more (s : unicode) : appends (write_more s).
Proof. intros out w. now rewrite !write_more_run. Qed.

Lemma appends_bind {A B} (m : M A) (k : A -> M B) :
  appends m -> (forall a, appends (k a)) -> appends (bind m k).
Proof.
  intros Hm Hk out w. unfold bind. rewrite Hm.
  destruct (m {| outfile := []; written := w |}) as [[a [out1 w1]]|]; [|reflexivity].
  cbn [outfile written]. rewrite (Hk a), (Hk a out1).
  destruct (k a {| outfile := []; written := w1 |}) as [[b [out2 w2]]|];
    [|reflexivity].
  cbn [outfile written]. now rewrite app_assoc.
Qed.

Lemma appends_for_each {A} (xs : list A) (body : A -> M unit) :
  (forall x, appends (body x)) -> appends (for_each xs body).
Proof.
  intro Hbody. induction xs as [|x rest IH]; cbn [for_each].
  - apply appends_ret.
  - apply appends_bind; [apply Hbody|intros _; exact IH].
Qed.

Create HintDb appends.

#[local] Hint Resolve appends_ret appends_raise appends_write
  appends_write_more appends_bind appends_for_each : appends.

Section OneReport.

Context {context : Type}.
Variable env : @Collaborators context.

Lemma appends_render_unparseable {A} (node : slot A) :
  appends (render_unparseable node).
Proof. destruct node; cbn [render_unparseable]; auto with appends. Qed.

Lemma appends_render_notices (node_complaints : option (list complaint)) :
  appends (render_notices env node_complaints).
Proof.
  unfold render_notices. apply appends_for_each. intros [notice_id ctx].
  destruct (notices env notice_id); auto with appends.
Qed.

Lemma appends_render_message (msg : Message) : appends (render_message env msg).
Proof.
  unfold render_message.
  apply appends_bind; [auto with appends|intros _].
  apply appends_bind; [|intros _].
  - destruct (body msg) as [| |[o [|b raw]]]; auto with appends.
  - apply appends_bind; [auto with appends|intros _].
    apply appends_render_notices.
Qed.

Lemma appends_render_response_slot (resp : slot Response) :
  appends (render_response_slot env resp).
Proof.
  unfold render_response_slot.
  apply appends_bind; [apply appends_render_unparseable|intros [|]];
    cbn [negb]; [apply appends_ret|].
  destruct resp; [apply appends_raise..|].
  apply appends_bind; [apply appends_write_more|intros _].
  apply appends_render_message.
Qed.

Lemma appends_render_exchange (exch : Exchange) :
  appends (render_exchange env exch).
Proof.
  unfold render_exchange.
  apply appends_bind; [apply appends_write_more|intros _].
  apply appends_bind; [apply appends_render_notices|intros _].
  apply appends_bind; [|intros _].
  - destruct (request exch) as [| |req]; [apply appends_ret| |].
    + apply appends_bind; [apply appends_render_unparseable|intros [|]];
        cbn [negb]; auto with appends.
    + apply appends_bind; [apply appends_render_unparseable|intros [|]];
        cbn [negb]; [apply appends_ret|].
      apply appends_bind; [apply appends_write_more|intros _].
      apply appends_render_message.
  - apply appends_for_each, appends_render_response_slot.
Qed.

Lemma appends_render_connection (connection : Connection) :
  appends (render_connection env connection).
Proof.
  unfold render_connection.
  apply appends_bind; [|intros _].
  - apply appends_for_each, appends_render_exchange.
  - apply appends_bind; [|intros _].
    + destruct (unparsed_inbound connection); auto with appends.
    + destruct (unparsed_outbound connection); auto with appends.
Qed.

Lemma appends_render_all (connections : list Connection) :
  appends (render_all env connections).
Proof. apply appends_for_each, appends_render_connection. Qed.

End OneReport.

(** ** The body pipeline *)

Section BodyPipeline.

Context {context : Type}.
Variable env : @Collaborators context.

Lemma decode_utf8 (e : errors) (r : bytes) :
  decode env (U "utf-8") e r = Some (utf8_decode e r).
Proof. reflexivity. Qed.

Lemma has_nonprintable_false (s : unicode) :
  Forall (fun c => is_printable env c = true) s ->
  has_nonprintable env s = false.
Proof.
  induction 1 as [|c rest Hc _ IH]; [reflexivity|].
  unfold has_nonprintable in *. cbn [existsb]. now rewrite Hc, IH.
Qed.

(** How [displayable_body] ends: the text is cut at the limit, and the note
    is added exactly when it was cut; it raises when the first part does. *)
Lemma displayable_body_limit (msg : Message) (raw : pystr) :
  body msg = Okay raw ->
  displayable_body env msg
  = match body_text env msg raw with
    | Some (r, notes) =>
      Some (Okay (firstn (N.to_nat limit) r),
            notes ++ (if limit <? N.of_nat (length r)
                      then [truncation_note] else []))
    | None => None
    end.
Proof.
  intro Hbody. unfold displayable_body. rewrite Hbody.
  destruct (body_text env msg raw) as [[r transforms]|]; [|reflexivity].
  destruct (limit <? N.of_nat (length r)) eqn:E; [reflexivity|].
  rewrite app_nil_r, firstn_all2; [reflexivity|].
  apply N.ltb_ge in E. unfold limit in *. lia.
Qed.

(** No note of the first part of the pipeline starts with the letter t. *)
Lemma body_text_notes (msg : Message) (raw : pystr)
      (r : unicode) (notes : list unicode) :
  body_text env msg raw = Some (r, notes) ->
  existsb (first_is 0x74) notes = false.
Proof.
  unfold body_text.
  destruct (transfer_encoding msg), (decoded_body msg) as [| |decoded],
           (content_encoding msg);
    try destruct (decode env _ Replace decoded) as [text|];
    try discriminate;
    try destruct (negb (unicode_eqb _ _));
    match goal with
    | |- context [has_nonprintable env ?r] => destruct (has_nonprintable env r)
    end; intro H; inversion H; subst; reflexivity.
Qed.

Lemma existsb_first_is (c : N) (note : unicode) (notes : list unicode) :
  first_is c note = true ->
  existsb (first_is c) notes = false ->
  existsb (unicode_eqb note) notes = false.
Proof.
  intros Hnote. induction notes as [|n rest IH]; [reflexivity|].
  cbn [existsb]. intro H. apply orb_false_iff in H as [Hn Hrest].
  rewrite (IH Hrest), orb_false_r. unfold unicode_eqb.
  destruct (list_eq_dec N.eq_dec note n) as [->|]; [congruence|reflexivity].
Qed.

End BodyPipeline.

(** C4 (as amended): a body of 6000 bytes of printable ASCII, with UTF-8 or
    no declared charset and no announced transfer or content encoding, is
    shown as its first 5000 characters, and the list of transforms is the
    one note of the cut.  For every message with a body, the text returned
    is the text before the cut taken up to 5000 code points, so it never
    has more, and the note of the cut is added when the text before the cut
    was longer than the limit, and only then: no earlier note is that
    note. *)
Theorem C4_long_body_is_cut
        {context : Type} (env : @Collaborators context)
        (msg : Message) (raw : pystr) :
  body msg = Okay raw ->
  (forall (r : unicode) (notes : list unicode),
      body_text env msg raw = Some (r, notes) ->
      displayable_body env msg
      = Some (Okay (firstn (N.to_nat limit) r),
              notes ++ (if limit <? N.of_nat (length r)
                        then [truncation_note] else []))
      /\ (length (firstn (N.to_nat limit) r) <= N.to_nat limit)%nat
      /\ existsb (unicode_eqb truncation_note) notes = false)
  /\ (forall (shown : unicode) (notes : list unicode),
         displayable_body env msg = Some (Okay shown, notes) ->
         (length shown <= N.to_nat 5000)%nat)
  /\ (length (str_bytes raw) = N.to_nat 6000 ->
      Forall (fun b => Byte.to_N b < 0x80) (str_bytes raw) ->
      Forall (fun b => is_printable env (Byte.to_N b) = true) (str_bytes raw) ->
      decoded_body msg = Okay (str_bytes raw) \/ okay (decoded_body msg) = false ->
      transfer_encoding msg = false ->
      content_encoding msg = false ->
      body_charset msg = None \/ body_charset msg = Some (U "UTF-8") ->
      codecs_lookup env (U "UTF-8") = Some (U "utf-8") ->
      displayable_body env msg
      = Some (Okay (firstn (N.to_nat 5000) (map Byte.to_N (str_bytes raw))),
              [U "taking the first 5000 characters"])).
Proof.
  intro Hbody. split; [|split].
  - intros r notes Htext.
    rewrite (displayable_body_limit env msg raw Hbody), Htext.
    split; [reflexivity|]. split; [apply firstn_le_length|].
    apply (existsb_first_is 0x74); [reflexivity|].
    exact (body_text_notes env msg raw r notes Htext).
  - intros shown notes H.
    rewrite (displayable_body_limit env msg raw Hbody) in H.
    destruct (body_text env msg raw) as [[r notes']|]; [|discriminate].
    pose proof (firstn_le_length (N.to_nat limit) r) as Hle.
    remember (firstn (N.to_nat limit) r) as cut_text.
    injection H as Hshown _. subst shown. exact Hle.
  - intros Hlen Hascii Hprintable Hdecoded Hte Hce Hcharset Hlookup.
    assert (Htext :
      body_text env msg raw = Some (map Byte.to_N (str_bytes raw), [])).
    { assert (Hcs : declared_charset msg = U "UTF-8").
      { unfold declared_charset. destruct Hcharset as [-> | ->]; reflexivity. }
      assert (Hcodec : resolve_codec env (declared_charset msg) = U "utf-8").
      { rewrite Hcs. unfold resolve_codec. now rewrite Hlookup. }
      assert (Hnone :
        has_nonprintable env (map Byte.to_N (str_bytes raw)) = false).
      { apply has_nonprintable_false, Forall_map. exact Hprintable. }
      unfold body_text. rewrite Hte, Hce.
      destruct Hdecoded as [-> | Hnot].
      - rewrite Hcodec, decode_utf8.
        rewrite (utf8_decode_ascii Replace _ Hascii), Hnone. reflexivity.
      - destruct (decoded_body msg); [| |discriminate];
          rewrite (utf8_decode_ascii Replace _ Hascii), Hnone; reflexivity. }
    rewrite (displayable_body_limit env msg raw Hbody), Htext.
    rewrite length_map, Hlen. reflexivity.
Qed.

(** C4 on the sample message whose body is 6000 letters. *)
Lemma C4_long_body_is_cut_witness :
  displayable_body Sample.collaborators Sample.with_letters
  = Some (Okay (repeat 0x61 (N.to_nat 5000)),
          [U "taking the first 5000 characters"]).
Proof.
  refine (eq_trans
            (proj2 (proj2 (C4_long_body_is_cut Sample.collaborators
                             Sample.with_letters Sample.letters eq_refl))
                   eq_refl _ _ (or_introl eq_refl) eq_refl eq_refl
                   (or_introl eq_refl) eq_refl)
            _).
  - apply Forall_forall. intros b Hb. apply repeat_spec in Hb. subst b.
    reflexivity.
  - apply Forall_forall. intros b Hb. apply repeat_spec in Hb. subst b.
    reflexivity.
  - vm_compute. reflexivity.
Defined.

(** C4, the claim as stated fails: a body of 6000 NUL bytes is ASCII, and it
    is shown as 5000 replacement signs with two notes. *)
Lemma C4_nul_bytes_two_notes :
  length (str_bytes Sample.nuls) = N.to_nat 6000
  /\ forallb (fun b => Byte.to_N b <? 0x80) (str_bytes Sample.nuls) = true
  /\ displayable_body Sample.collaborators Sample.with_nuls
     = Some (Okay (repeat REPLACEMENT (N.to_nat 5000)),
             [U "replacing non-printable characters with the "
              ++ [REPLACEMENT] ++ U " sign";
              U "taking the first 5000 characters"]).
Proof. repeat split; vm_compute; reflexivity. Qed.

(** *** A codec that raises *)

(** C5, the code at a failing input: the message declares the charset [hex],
    a name that [codecs.lookup] knows, so that the [try] statement is left
    without an exception; the codec does not take the handler 'replace', and
    the call of [decode], which no [try] statement guards, raises: the body
    is not decoded and [displayable_body] does not return, and neither does
    [HTMLReport.render_message].  The same message with the unknown name
    [bogus-xyz] is shown as with UTF-8, without a note. *)
Theorem C5_registered_codec_raises :
  body hex_greeting = Okay (Sample.a_str 741 (B "hello"))
  /\ body_charset hex_greeting = Some (U "hex")
  /\ displayable_body Sample.collaborators hex_greeting = None
  /\ html_render_message Sample.collaborators hex_greeting = None
  /\ displayable_body Sample.collaborators
       (with_body_charset (Some (U "bogus-xyz")) Sample.greeting)
     = Some (Okay (U "hello"), [])
  /\ displayable_body Sample.collaborators
       (with_body_charset (Some (U "UTF-8")) Sample.greeting)
     = Some (Okay (U "hello"), []).
Proof. repeat split; reflexivity. Qed.

(** C10, the code at a failing input: a message whose body is present and
    empty and which declares the charset [hex].  The text renderer writes
    what it writes when the body is absent; [displayable_body] raises at
    the call of [decode], and so does [HTMLReport.render_message], whereas
    with the body absent both return. *)
Theorem C10_empty_body_with_codec_that_raises :
  body hex_empty = Okay (Sample.a_str 731 [])
  /\ decoded_body hex_empty = Okay []
  /\ render_message Sample.collaborators hex_empty
     = render_message Sample.collaborators (with_body NoneValue hex_empty)
  /\ displayable_body Sample.collaborators hex_empty = None
  /\ html_render_message Sample.collaborators hex_empty = None
  /\ displayable_body Sample.collaborators (with_body NoneValue hex_empty)
     = Some (NoneValue, [])
  /\ returned (html_render_message Sample.collaborators
                 (with_body NoneValue hex_empty))
     = true.
Proof. repeat split; reflexivity. Qed.

(** * Further properties *)

(** ** The two backends show the same characters *)

Section SameCharacters.

Context {context : Type}.
Variable env : @Collaborators context.

(** Induction on a piece, with the pieces it holds. *)
Lemma piece_nested_ind (P : piece -> Prop) :
  (forall get_contents resolve,
      (forall ctx : context, Forall P (get_contents ctx)) ->
      P (Ref get_contents resolve)) ->
  (forall contents info, Forall P contents -> P (Citation contents info)) ->
  (forall contents, Forall P contents -> P (WithContents contents)) ->
  (forall item, P item -> P (Parametrized item)) ->
  (forall its_name, P its_name -> P (WithName its_name)) ->
  (forall a, P (Leaf a)) ->
  forall p, P p.
Proof.
  intros HRef HCitation HContents HParametrized HName HLeaf.
  fix IH 1. intros [get_contents resolve|contents info|contents|item|its_name|a].
  - apply HRef. intro ctx. generalize (get_contents ctx).
    fix IHs 1. intros [|q rest]; constructor; [apply IH|apply IHs].
  - apply HCitation. revert contents.
    fix IHs 1. intros [|q rest]; constructor; [apply IH|apply IHs].
  - apply HContents. revert contents.
    fix IHs 1. intros [|q rest]; constructor; [apply IH|apply IHs].
  - apply HParametrized, IH.
  - apply HName, IH.
  - apply HLeaf.
Qed.

Lemma text_loop (ctx : context) (ps : list piece) :
  (fix pieces (ps : list piece) : unicode :=
     match ps with
     | [] => []
     | q :: rest => piece_to_text q ctx ++ pieces rest
     end) ps
  = pieces_to_text ps ctx.
Proof.
  induction ps as [|q rest IH]; [reflexivity|].
  rewrite pieces_to_text_cons, <- IH. reflexivity.
Qed.

Lemma html_loop (ctx : context) (ps : list piece) :
  (fix pieces (ps : list piece) : list node :=
     match ps with
     | [] => []
     | q :: rest => piece_to_html env q ctx ++ pieces rest
     end) ps
  = pieces_to_html env ps ctx.
Proof.
  induction ps as [|q rest IH]; [reflexivity|].
  rewrite pieces_to_html_cons, <- IH. reflexivity.
Qed.

Lemma citation_free_loop (ctx : context) (ps : list piece) :
  (fix all (ps : list piece) : bool :=
     match ps with
     | [] => true
     | q :: rest => citation_free q ctx && all rest
     end) ps
  = forallb (fun p => citation_free p ctx) ps.
Proof.
  induction ps as [|q rest IH]; [reflexivity|].
  cbn [forallb]. rewrite <- IH. reflexivity.
Qed.

Lemma texts_app (xs ys : list node) : texts (xs ++ ys) = texts xs ++ texts ys.
Proof. unfold texts. now rewrite map_app, concat_app. Qed.

Lemma node_text_element (tag : unicode) (kwargs : list (unicode * unicode))
      (children : list node) :
  node_text (Element tag kwargs children) = texts children.
Proof.
  cbn [node_text]. induction children as [|c rest IH]; [reflexivity|].
  unfold texts. cbn [map concat]. now rewrite IH.
Qed.

Lemma texts_cons (n : node) (ns : list node) :
  texts (n :: ns) = node_text n ++ texts ns.
Proof. reflexivity. Qed.

Lemma texts_render_known (a : atom) : texts (render_known env a) = text a.
Proof.
  unfold render_known.
  destruct (known_citation env a); unfold texts, holding; cbn [map concat];
    rewrite node_text_element; unfold texts; cbn; now rewrite !app_nil_r.
Qed.

Lemma texts_pieces (ctx : context) (ps : list piece) :
  Forall (fun p => citation_free p ctx = true ->
                   texts (piece_to_html env p ctx) = piece_to_text p ctx) ps ->
  forallb (fun p => citation_free p ctx) ps = true ->
  texts (pieces_to_html env ps ctx) = pieces_to_text ps ctx.
Proof.
  induction 1 as [|q rest Hq _ IH]; [reflexivity|].
  cbn [forallb]. intro H. apply andb_true_iff in H as [Hfree Hrest].
  rewrite pieces_to_html_cons, pieces_to_text_cons, texts_app.
  now rewrite (Hq Hfree), (IH Hrest).
Qed.

Lemma texts_piece_to_html (p : piece) (ctx : context) :
  citation_free p ctx = true ->
  texts (piece_to_html env p ctx) = piece_to_text p ctx.
Proof.
  induction p as [get_contents resolve IH|contents info IH|contents IH
                  |item IH|its_name IH|a] using piece_nested_ind.
  - cbn [citation_free piece_to_html piece_to_text].
    rewrite citation_free_loop, html_loop, text_loop. intro H.
    rewrite texts_cons, node_text_element. unfold texts at 2. cbn [map concat].
    rewrite app_nil_r. now apply texts_pieces.
  - discriminate.
  - cbn [citation_free piece_to_html piece_to_text].
    rewrite citation_free_loop, html_loop, text_loop. now apply texts_pieces.
  - exact IH.
  - exact IH.
  - intros _. cbn [piece_to_html piece_to_text].
    destruct (is_known env a); [apply texts_render_known|].
    unfold texts, holding. cbn. now rewrite !app_nil_r.
Qed.

Lemma texts_pieces_to_html (ps : list piece) (ctx : context) :
  forallb (fun p => citation_free p ctx) ps = true ->
  texts (pieces_to_html env ps ctx) = pieces_to_text ps ctx.
Proof.
  apply texts_pieces. apply Forall_forall. intros p _.
  apply texts_piece_to_html.
Qed.

(** X1: a piece in which no citation is met shows the same characters in
    both backends: the strings of the elements that [piece_to_html] builds,
    read in document order, are the text that [piece_to_text] gives; and so
    for a sequence of such pieces. *)
Theorem X1_piece_same_characters (ctx : context) :
  (forall p : piece,
      citation_free p ctx = true ->
      texts (piece_to_html env p ctx) = piece_to_text p ctx)
  /\ (forall ps : list piece,
         forallb (fun p => citation_free p ctx) ps = true ->
         texts (pieces_to_html env ps ctx) = pieces_to_text ps ctx).
Proof.
  split.
  - intros p Hfree. now apply texts_piece_to_html.
  - intros ps Hfree. now apply texts_pieces_to_html.
Qed.

End SameCharacters.

(** X1 on a sample piece: a reference that wraps a known token. *)
Lemma X1_piece_same_characters_witness :
  texts (piece_to_html Sample.collaborators
           (Ref (fun _ => [WithName (Leaf (Sample.an_atom "Method" 301 "GET"))])
                (fun _ => Other (Sample.obj "Method" 301)))
           tt)
  = U "GET".
Proof.
  exact (proj1 (X1_piece_same_characters Sample.collaborators tt)
               (Ref (fun _ => [WithName (Leaf (Sample.an_atom "Method" 301 "GET"))])
                    (fun _ => Other (Sample.obj "Method" 301)))
               eq_refl).
Defined.

(** ** Notices in hypertext *)

Section NoticeCharacters.

Context {context : Type}.
Variable env : @Collaborators context.

Lemma texts_paragraphs (paragraphs : list (list piece)) (ctx : context) :
  forallb (forallb (fun p => citation_free p ctx)) paragraphs = true ->
  texts (map (fun para =>
                Element (U "p") [_class (U "notice-para"); __inline]
                  (pieces_to_html env para ctx))
             paragraphs)
  = concat (map (fun para => pieces_to_text para ctx) paragraphs).
Proof.
  induction paragraphs as [|para rest IH]; [reflexivity|].
  cbn [forallb map concat]. intro H. apply andb_true_iff in H as [Hpara Hrest].
  rewrite texts_cons, node_text_element, (IH Hrest).
  now rewrite texts_pieces_to_html.
Qed.

Lemma texts_notice_to_html (the_notice : Notice) (ctx : context)
      (for_example : bool) :
  citation_free_notice the_notice ctx = true ->
  texts (notice_to_html env the_notice ctx for_example)
  = (if for_example then []
     else decimal (ident the_notice) ++ U " " ++ severity_short the_notice
          ++ U " ")
    ++ pieces_to_text (title the_notice) ctx
    ++ concat (map (fun para => pieces_to_text para ctx)
                   (explanation the_notice)).
Proof.
  unfold citation_free_notice. intro H.
  apply andb_true_iff in H as [Htitle Hparagraphs].
  unfold notice_to_html.
  rewrite texts_cons, node_text_element, texts_cons, node_text_element.
  rewrite (texts_paragraphs _ _ Hparagraphs), texts_app, texts_cons.
  rewrite node_text_element, (texts_pieces_to_html env _ _ Htitle).
  unfold texts at 3. cbn [map concat].
  destruct for_example; cbn [negb].
  - unfold texts. cbn [map concat app]. now rewrite !app_nil_r.
  - rewrite !texts_cons, !node_text_element. unfold holding.
    rewrite !texts_cons, !node_text_element. unfold texts.
    cbn [map concat node_text]. rewrite !app_nil_r, <- !app_assoc.
    reflexivity.
Qed.

(** X2: the element of a notice whose pieces meet no citation shows the
    characters of the title and then of the paragraphs, as the text backend
    gives them before stripping; in a report, the number of the notice, a
    space, the short severity and a space come first, and for an example
    ([for_example]) they are left out. *)
Theorem X2_notice_characters (the_notice : Notice) (ctx : context)
        (for_example : bool) :
  citation_free_notice the_notice ctx = true ->
  texts (notice_to_html env the_notice ctx for_example)
  = (if for_example then []
     else decimal (ident the_notice) ++ U " " ++ severity_short the_notice
          ++ U " ")
    ++ pieces_to_text (title the_notice) ctx
    ++ concat (map (fun para => pieces_to_text para ctx)
                   (explanation the_notice)).
Proof.
  intro Hfree. rewrite (texts_notice_to_html _ _ _ Hfree).
  destruct for_example; reflexivity.
Qed.

End NoticeCharacters.

(** X2 on the sample notice, as a report shows it. *)
Lemma X2_notice_characters_witness :
  texts (notice_to_html Sample.collaborators Sample.the_notice tt false)
  = U "1234 E Something is wrongSee the response.".
Proof.
  exact (X2_notice_characters Sample.collaborators Sample.the_notice tt false
                              eq_refl).
Defined.

(** ** The page of examples *)

Section Examples.

Context {context : Type}.
Variable env : @Collaborators context.

Lemma texts_example_rows (examples : list (Notice * context)) :
  forallb (fun example => citation_free_notice (fst example) (snd example))
          examples = true ->
  texts (map (fun '(the_notice, ctx) =>
                Element (U "tr") []
                  [holding (U "td") [] (decimal (ident the_notice));
                   holding (U "td") [] (severity the_notice);
                   Element (U "td") []
                     (notice_to_html env the_notice ctx true)])
             examples)
  = concat (map (fun '(the_notice, ctx) =>
                   decimal (ident the_notice) ++ severity the_notice
                   ++ pieces_to_text (title the_notice) ctx
                   ++ concat (map (fun para => pieces_to_text para ctx)
                                  (explanation the_notice)))
                examples).
Proof.
  induction examples as [|[the_notice ctx] rest IH]; [reflexivity|].
  cbn [forallb map concat fst snd]. intro H.
  apply andb_true_iff in H as [Hfree Hrest].
  rewrite texts_cons, (IH Hrest), node_text_element. unfold holding.
  rewrite !texts_cons, !node_text_element.
  rewrite (texts_notice_to_html env the_notice ctx true Hfree).
  unfold texts. cbn [map concat node_text app].
  now rewrite !app_nil_r, <- !app_assoc.
Qed.

(** X3: the page of examples shows its heading, the three column heads and
    then, for each example in the order given, the number of the notice, its
    severity in full, and the characters of its title and paragraphs (for
    notices whose pieces meet no citation); the bytes returned are the
    rendering of that document in UTF-8. *)
Theorem X3_examples_page (examples : list (Notice * context)) :
  forallb (fun example => citation_free_notice (fst example) (snd example))
          examples = true ->
  texts (document_body (notice_examples_document env examples))
  = U "HTTPolice notice examples" ++ U "ID" ++ U "severity" ++ U "example"
    ++ concat (map (fun '(the_notice, ctx) =>
                      decimal (ident the_notice) ++ severity the_notice
                      ++ pieces_to_text (title the_notice) ctx
                      ++ concat (map (fun para => pieces_to_text para ctx)
                                     (explanation the_notice)))
                   examples)
  /\ render_notice_examples env examples
     = utf8_encode
         (document_render env (notice_examples_document env examples)).
Proof.
  intro Hfree. split; [|reflexivity].
  unfold notice_examples_document. cbn [document_body].
  repeat (rewrite texts_cons || rewrite node_text_element).
  rewrite (texts_example_rows _ Hfree).
  unfold texts. cbn [map concat node_text app].
  now rewrite !app_nil_r.
Qed.

End Examples.

(** X3 on a page with the sample notice as its one example. *)
Lemma X3_examples_page_witness :
  texts (document_body
           (notice_examples_document Sample.collaborators
              [(Sample.the_notice, tt)]))
  = U "HTTPolice notice examplesIDseverityexample1234errorSomething is wrongSee the response.".
Proof.
  exact (proj1 (X3_examples_page Sample.collaborators [(Sample.the_notice, tt)]
                                 eq_refl)).
Defined.

(** ** The transcript is made of whole lines *)

Lemma ends_with_lf_line (s : unicode) :
  ends_with_lf (utf8_encode (s ++ nl)) = true.
Proof.
  unfold ends_with_lf. rewrite utf8_encode_app, rev_app_distr. reflexivity.
Qed.

Lemma ends_with_lf_concat (chunks : list bytes) :
  forallb ends_with_lf chunks = true ->
  nonempty chunks = true ->
  ends_with_lf (getvalue chunks) = true.
Proof.
  unfold getvalue.
  induction chunks as [|chunk rest IH]; [discriminate|].
  cbn [forallb concat]. intros H _. apply andb_true_iff in H as [Hchunk Hrest].
  destruct rest as [|next rest'].
  - cbn [concat]. now rewrite app_nil_r.
  - specialize (IH Hrest eq_refl). unfold ends_with_lf in *.
    rewrite rev_app_distr.
    destruct (rev (concat (next :: rest'))); [discriminate|exact IH].
Qed.

Lemma orderly_ret {A} (a : A) : orderly (ret a).
Proof.
  intros self a' self' H. inversion H; subst. exists [].
  now rewrite app_nil_r, orb_false_r.
Qed.

Lemma orderly_raise {A} : orderly (@raise A).
Proof. intros self a self' H. discriminate. Qed.

Lemma orderly_write (s : unicode) :
  ends_with_lf (utf8_encode s) = true -> orderly (write s).
Proof.
  intros Hs self a self' H. inversion H; subst. exists [utf8_encode s].
  cbn [outfile written nonempty forallb]. now rewrite Hs, orb_true_r.
Qed.

Lemma orderly_write_more (s : unicode) :
  ends_with_lf (utf8_encode s) = true -> orderly (write_more s).
Proof.
  intros Hs [out w] a self' H. rewrite write_more_run in H.
  inversion H; subst.
  exists ((if w then [utf8_encode nl] else []) ++ [utf8_encode s]).
  cbn [outfile written]. destruct w; cbn [app nonempty forallb orb];
    now rewrite Hs.
Qed.

Lemma orderly_bind {A B} (m : M A) (k : A -> M B) :
  orderly m -> (forall a, orderly (k a)) -> orderly (bind m k).
Proof.
  intros Hm Hk self b self'' H. unfold bind in H.
  destruct (m self) as [[a self']|] eqn:E; [|discriminate].
  destruct (Hm _ _ _ E) as (added1 & Hout1 & Hflag1 & Hlines1).
  destruct (Hk a _ _ _ H) as (added2 & Hout2 & Hflag2 & Hlines2).
  exists (added1 ++ added2). split; [|split].
  - now rewrite Hout2, Hout1, app_assoc.
  - rewrite Hflag2, Hflag1. destruct added1, added2; cbn;
      now rewrite ?orb_false_r, ?orb_true_r.
  - now rewrite forallb_app, Hlines1, Hlines2.
Qed.

Lemma orderly_for_each {A} (xs : list A) (body : A -> M unit) :
  (forall x, orderly (body x)) -> orderly (for_each xs body).
Proof.
  intro Hbody. induction xs as [|x rest IH]; cbn [for_each].
  - apply orderly_ret.
  - apply orderly_bind; [apply Hbody|intros _; exact IH].
Qed.

Section WholeLines.

Context {context : Type}.
Variable env : @Collaborators context.

Lemma ends_with_lf_entry_line (entry : HeaderEntry) :
  ends_with_lf (utf8_encode (entry_line entry)) = true.
Proof. unfold entry_line. rewrite !app_assoc. apply ends_with_lf_line. Qed.

Lemma ends_with_lf_notice (the_notice : Notice) (ctx : context) :
  ends_with_lf (utf8_encode (notice_to_text the_notice ctx)) = true.
Proof. unfold notice_to_text. rewrite !app_assoc. apply ends_with_lf_line. Qed.

Lemma orderly_render_unparseable {A} (node : slot A) :
  orderly (render_unparseable node).
Proof.
  destruct node; cbn [render_unparseable]; try apply orderly_ret.
  apply orderly_bind; [|intros _; apply orderly_ret].
  apply orderly_write_more. rewrite !app_assoc. apply ends_with_lf_line.
Qed.

Lemma orderly_render_notices (node_complaints : option (list complaint)) :
  orderly (render_notices env node_complaints).
Proof.
  unfold render_notices. apply orderly_for_each. intros [notice_id ctx].
  destruct (notices env notice_id); [|apply orderly_raise].
  apply orderly_write_more, ends_with_lf_notice.
Qed.

Lemma orderly_render_message (msg : Message) : orderly (render_message env msg).
Proof.
  unfold render_message.
  apply orderly_bind; [|intros _].
  { apply orderly_for_each. intro entry.
    apply orderly_write, ends_with_lf_entry_line. }
  apply orderly_bind; [|intros _].
  { destruct (body msg) as [| |[o [|b raw]]]; try apply orderly_ret;
      apply orderly_write; rewrite !app_assoc; apply ends_with_lf_line. }
  apply orderly_bind; [|intros _; apply orderly_render_notices].
  apply orderly_for_each. intro entry.
  apply orderly_write, ends_with_lf_entry_line.
Qed.

Lemma orderly_render_response_slot (resp : slot Response) :
  orderly (render_response_slot env resp).
Proof.
  unfold render_response_slot.
  apply orderly_bind; [apply orderly_render_unparseable|intros [|]];
    cbn [negb]; [apply orderly_ret|].
  destruct resp; [apply orderly_raise..|].
  apply orderly_bind; [|intros _; apply orderly_render_message].
  unfold render_status_line. apply orderly_write_more.
  rewrite !app_assoc. apply ends_with_lf_line.
Qed.

Lemma orderly_render_exchange (exch : Exchange) :
  orderly (render_exchange env exch).
Proof.
  unfold render_exchange.
  apply orderly_bind; [apply orderly_write_more, ends_with_lf_line|intros _].
  apply orderly_bind; [apply orderly_render_notices|intros _].
  apply orderly_bind;
    [|intros _; apply orderly_for_each, orderly_render_response_slot].
  destruct (request exch) as [| |req]; [apply orderly_ret| |].
  - apply orderly_bind; [apply orderly_render_unparseable|intros [|]];
      cbn [negb]; [apply orderly_ret|apply orderly_raise].
  - apply orderly_bind; [apply orderly_render_unparseable|intros [|]];
      cbn [negb]; [apply orderly_ret|].
    apply orderly_bind; [|intros _; apply orderly_render_message].
    unfold render_request_line. apply orderly_write_more.
    rewrite !app_assoc. apply ends_with_lf_line.
Qed.

Lemma orderly_render_connection (connection : Connection) :
  orderly (render_connection env connection).
Proof.
  unfold render_connection.
  apply orderly_bind;
    [apply orderly_for_each, orderly_render_exchange|intros _].
  apply orderly_bind; [|intros _].
  - destruct (unparsed_inbound connection); [apply orderly_ret|].
    apply orderly_write_more. rewrite !app_assoc. apply ends_with_lf_line.
  - destruct (unparsed_outbound connection); [apply orderly_ret|].
    apply orderly_write. rewrite !app_assoc. apply ends_with_lf_line.
Qed.

Lemma orderly_render_all (connections : list Connection) :
  orderly (render_all env connections).
Proof. apply orderly_for_each, orderly_render_connection. Qed.

(** X4: the flag [written] of a text report tells whether the file was
    written to: when [render_all] returns, the file holds what it held and
    the chunks added, and the flag is set if and only if it was set before
    or a chunk was added.  On a fresh report, whose flag is unset, it is set
    exactly when something was written. *)
Theorem X4_written_tells_whether_written
        (connections : list Connection) (self self' : TextReport) :
  render_all env connections self = Some (tt, self') ->
  exists added : list bytes,
    outfile self' = outfile self ++ added
    /\ written self' = written self || nonempty added.
Proof.
  intro H. destruct (orderly_render_all connections _ _ _ H)
    as (added & Hout & Hflag & _).
  exists added. now split.
Qed.

(** X5: the text report hands whole lines to the file: when [render_all]
    returns, every chunk it added ends with a line feed, and so does the
    whole of what it added, unless it added nothing. *)
Theorem X5_transcript_is_whole_lines
        (connections : list Connection) (self self' : TextReport) :
  render_all env connections self = Some (tt, self') ->
  exists added : list bytes,
    outfile self' = outfile self ++ added
    /\ forallb ends_with_lf added = true
    /\ (nonempty added = true -> ends_with_lf (getvalue added) = true).
Proof.
  intro H. destruct (orderly_render_all connections _ _ _ H)
    as (added & Hout & _ & Hlines).
  exists added. split; [exact Hout|]. split; [exact Hlines|].
  now apply ends_with_lf_concat.
Qed.

End WholeLines.

(** X4 on the sample report, rendered by a fresh text report. *)
Lemma X4_written_tells_whether_written_witness :
  exists added : list bytes,
    sample_transcript = [] ++ added
    /\ true = false || nonempty added.
Proof.
  exact (X4_written_tells_whether_written Sample.collaborators
           [Sample.connection] (TextReport_init [])
           {| outfile := sample_transcript; written := true |} eq_refl).
Defined.

(** X5 on the sample report. *)
Lemma X5_transcript_is_whole_lines_witness :
  exists added : list bytes,
    sample_transcript = [] ++ added
    /\ forallb ends_with_lf added = true
    /\ (nonempty added = true -> ends_with_lf (getvalue added) = true).
Proof.
  exact (X5_transcript_is_whole_lines Sample.collaborators
           [Sample.connection] (TextReport_init [])
           {| outfile := sample_transcript; written := true |} eq_refl).
Defined.

(** ** Calls one after the other *)

Lemma for_each_app {A} (xs ys : list A) (body : A -> M unit)
      (self : TextReport) :
  for_each (xs ++ ys) body self = (for_each xs body ;; for_each ys body) self.
Proof.
  revert self; induction xs as [|x rest IH]; intro self; cbn [app for_each].
  - reflexivity.
  - rewrite !bind_run. destruct (body x self) as [[[] self']|]; [|reflexivity].
    rewrite IH. reflexivity.
Qed.

Section Composition.

Context {context : Type}.
Variable env : @Collaborators context.

(** X6: a text report can be fed in parts: [render_all] on one list of
    connections and then on another, with the same report object, raises or
    returns as one call on the two lists joined, and leaves the same file
    and flag. *)
Theorem X6_text_report_in_parts
        (first second : list Connection) (self : TextReport) :
  (render_all env first ;; render_all env second) self
  = render_all env (first ++ second) self.
Proof.
  unfold render_all. symmetry. apply for_each_app.
Qed.

(** X7: a hypertext report keeps what it was given: after [render_all] on
    one list of connections and then on another with the same report
    object, the file holds two pages, and the second page has the elements
    of the first list again, followed by those of the second list.  Either
    call raises exactly when building the elements of its list raises. *)
Theorem X7_html_report_accumulates
        (first second : list Connection) (out : list bytes) :
  match html_render_all env first (HTMLReport_init out) with
  | Some after_first => html_render_all env second after_first
  | None => None
  end
  = match html_render_connections env first,
          html_render_connections env second with
    | Some added1, Some added2 =>
      Some {| html_outfile :=
                out ++ [utf8_encode
                          (document_render env (report_document added1));
                        utf8_encode
                          (document_render env
                             (report_document (added1 ++ added2)))];
              the_document := report_document (added1 ++ added2) |}
    | _, _ => None
    end.
Proof.
  unfold html_render_all.
  destruct (html_render_connections env first) as [added1|]; [|reflexivity].
  destruct (html_render_connections env second) as [added2|]; [|reflexivity].
  unfold dump, report_document, HTMLReport_init.
  cbn [html_outfile the_document document_title head document_body app].
  now rewrite <- app_assoc.
Qed.

End Composition.

(** ** Notices that are not in the catalog *)

Section Catalog.

Context {context : Type}.
Variable env : @Collaborators context.

Lemma render_notices_returned (the_complaints : list complaint)
      (self : TextReport) :
  returned
    (for_each the_complaints
       (fun '(notice_id, ctx) =>
          match notices env notice_id with
          | Some the_notice => write_more (notice_to_text the_notice ctx)
          | None => raise
          end) self)
  = forallb (in_catalog env) the_complaints.
Proof.
  revert self; induction the_complaints as [|[notice_id ctx] rest IH];
    intro self; [reflexivity|].
  cbn [for_each forallb]. unfold in_catalog at 1. cbn [fst].
  rewrite bind_run. destruct (notices env notice_id) as [the_notice|].
  - destruct self as [out w]. rewrite write_more_run. cbn [returned andb].
    apply IH.
  - reflexivity.
Qed.

Lemma for_html_notices (the_complaints : list complaint) :
  match for_html the_complaints
          (fun '(notice_ident, ctx) =>
             match notices env notice_ident with
             | Some n => Some (notice_to_html env n ctx false)
             | None => None
             end) with
  | Some children =>
    forallb (in_catalog env) the_complaints = true
    /\ length children = length the_complaints
  | None => forallb (in_catalog env) the_complaints = false
  end.
Proof.
  induction the_complaints as [|[notice_ident ctx] rest IH];
    [split; reflexivity|].
  cbn [for_html forallb]. unfold in_catalog at 1 3. cbn [fst].
  destruct (notices env notice_ident) as [n|]; [|reflexivity].
  cbn [returned andb then_html].
  destruct (for_html rest _) as [children|]; [|exact IH].
  destruct IH as [Hall Hlength]. split; [exact Hall|].
  unfold notice_to_html. cbn [app length]. now rewrite Hlength.
Qed.

(** X8: a complaint whose notice is not in the catalog makes both backends
    raise, and nothing else about the complaints does: [render_notices] of
    the text report returns, whatever the state of the report, exactly when
    every complaint names a notice of the catalog, and so does
    [render_notices] of the hypertext report.  When the hypertext one
    returns, it has built nothing if there is no complaint, and otherwise
    one element that holds one element per complaint. *)
Theorem X8_notices_outside_the_catalog
        (node_complaints : option (list complaint)) (self : TextReport) :
  returned (render_notices env node_complaints self)
  = forallb (in_catalog env) (or_empty node_complaints)
  /\ returned (html_render_notices env node_complaints)
     = forallb (in_catalog env) (or_empty node_complaints)
  /\ match html_render_notices env node_complaints with
     | Some built =>
       match or_empty node_complaints with
       | [] => built = []
       | _ :: _ =>
         exists children : list node,
           built = [Element (U "div") [_class (U "notices")] children]
           /\ length children = length (or_empty node_complaints)
       end
     | None => True
     end.
Proof.
  split; [apply render_notices_returned|].
  unfold html_render_notices.
  destruct (or_empty node_complaints) as [|c rest] eqn:E;
    [repeat split; reflexivity|].
  pose proof (for_html_notices (c :: rest)) as H. unfold within.
  destruct (for_html (c :: rest) _) as [children|].
  - destruct H as [Hall Hlength]. split; [now rewrite Hall|].
    exists children. now split.
  - split; [now rewrite H|exact I].
Qed.

End Catalog.

(** ** The headings of the connections *)

Section Headings.

Context {context : Type}.
Variable env : @Collaborators context.

Lemma connections_built (many : bool) (connections : list Connection) :
  forall (start : nat) (built : list node),
    for_html (enumerate start connections)
      (fun '(i, conn) =>
         within (U "div") (for_object (connection_obj conn) [])
           (then_html
              (Some (if many
                     then [holding (U "h1") []
                             (U "Connection " ++ decimal (N.of_nat (i + 1)))]
                     else []))
              (html_render_connection env conn)))
    = Some built ->
    length built = length connections
    /\ forall (i : nat) (conn : Connection),
        nth_error connections i = Some conn ->
        exists inner : list node,
          html_render_connection env conn = Some inner
          /\ nth_error built i
             = Some (Element (U "div") (for_object (connection_obj conn) [])
                       ((if many then [connection_heading (start + i)] else [])
                        ++ inner)).
Proof.
  induction connections as [|first rest IH]; intros start built.
  - cbn [enumerate for_html]. intro H. inversion H; subst.
    split; [reflexivity|]. intros [|i] conn; discriminate.
  - cbn [enumerate for_html].
    destruct (html_render_connection env first) as [inner|] eqn:Hfirst;
      [|discriminate].
    cbn [then_html within].
    destruct (for_html (enumerate (S start) rest) _) as [others|] eqn:Hrest;
      [|discriminate].
    intro H. inversion H; subst. clear H.
    destruct (IH _ _ Hrest) as [Hlength Hnth].
    split; [cbn [app length]; now rewrite Hlength|].
    intros [|i] conn Hconn.
    + inversion Hconn; subst. exists inner. split; [exact Hfirst|].
      replace (start + 0)%nat with start by apply plus_n_O. reflexivity.
    + destruct (Hnth i conn Hconn) as (inner' & Hinner & Hbuilt).
      exists inner'. split; [exact Hinner|].
      replace (start + S i)%nat with (S start + i)%nat
        by (cbn [Nat.add]; apply plus_n_Sm).
      exact Hbuilt.
Qed.

(** X9: when [render_all] of the hypertext report builds its elements, there
    is one element per connection, in the order given, with the id of the
    connection; it holds what [render_connection] builds for the connection,
    and before that, when there is more than one connection, and only then,
    a heading that numbers the connection from 1. *)
Theorem X9_connection_headings
        (connections : list Connection) (built : list node) :
  html_render_connections env connections = Some built ->
  length built = length connections
  /\ forall (i : nat) (conn : Connection),
      nth_error connections i = Some conn ->
      exists inner : list node,
        html_render_connection env conn = Some inner
        /\ nth_error built i
           = Some (Element (U "div") (for_object (connection_obj conn) [])
                     ((if Nat.ltb 1 (length connections)
                       then [connection_heading i] else [])
                      ++ inner)).
Proof.
  unfold html_render_connections. intro H.
  apply (connections_built (Nat.ltb 1 (length connections)) connections 0 built H).
Qed.

End Headings.

(** X9 on a report of twice the sample connection. *)
Lemma X9_connection_headings_witness :
  let built :=
    match html_render_connections Sample.collaborators
            [Sample.connection; Sample.connection] with
    | Some built => built
    | None => []
    end in
  length built = 2%nat
  /\ forall (i : nat) (conn : Connection),
      nth_error [Sample.connection; Sample.connection] i = Some conn ->
      exists inner : list node,
        html_render_connection Sample.collaborators conn = Some inner
        /\ nth_error built i
           = Some (Element (U "div") (for_object (connection_obj conn) [])
                     ([connection_heading i] ++ inner)).
Proof.
  exact (X9_connection_headings Sample.collaborators
           [Sample.connection; Sample.connection] _ eq_refl).
Defined.

(** ** The notes of the body pipeline *)


(** ** Anchors *)

Lemma to_N_inj (a b : byte) : Byte.to_N a = Byte.to_N b -> a = b.
Proof.
  intro H. apply (f_equal Byte.of_N) in H. rewrite !Byte.of_to_N in H.
  now inversion H.
Qed.

Lemma U_inj (s t : string) : U s = U t -> s = t.
Proof.
  unfold U. intro H.
  assert (Hbytes : list_byte_of_string s = list_byte_of_string t).
  { revert H. generalize (list_byte_of_string s), (list_byte_of_string t).
    induction l as [|a l IH]; intros [|b l'] H; try discriminate;
      [reflexivity|].
    cbn [map] in H. inversion H as [[Hhead Htail]].
    apply to_N_inj in Hhead. subst. f_equal. now apply IH. }
  apply (f_equal string_of_list_byte) in Hbytes.
  now rewrite !string_of_list_byte_of_string in Hbytes.
Qed.

Lemma decimal_inj (n m : N) : decimal n = decimal m -> n = m.
Proof.
  unfold decimal. intro H. apply U_inj in H.
  apply (f_equal NilEmpty.uint_of_string) in H.
  rewrite !NilEmpty.usu in H. inversion H as [Huint].
  apply (f_equal N.of_uint) in Huint.
  now rewrite !DecimalN.Unsigned.of_to in Huint.
Qed.

Lemma digits_of_uint (d : Decimal.uint) :
  forallb is_digit (U (NilEmpty.string_of_uint d)) = true.
Proof. induction d; [reflexivity|exact IHd..]. Qed.

Lemma decimal_nonempty (n : N) : nonempty (decimal n) = true.
Proof.
  destruct (decimal n) eqn:E; [|reflexivity].
  assert (H : decimal n = decimal 0 -> n = 0) by apply decimal_inj.
  assert (Hzero : decimal n = U "") by exact E.
  unfold decimal in Hzero. apply U_inj in Hzero.
  apply (f_equal NilEmpty.uint_of_string) in Hzero.
  rewrite NilEmpty.usu in Hzero. inversion Hzero as [Huint].
  apply (f_equal N.of_uint) in Huint.
  rewrite DecimalN.Unsigned.of_to in Huint. subst n. discriminate.
Qed.

Lemma is_anchor_anchor (o : object) : is_anchor (anchor o) = true.
Proof.
  unfold anchor, decimal.
  pose proof (digits_of_uint (N.to_uint (id o))) as Hdigits.
  pose proof (decimal_nonempty (id o)) as Hnonempty. unfold decimal in Hnonempty.
  destruct (U (NilEmpty.string_of_uint (N.to_uint (id o)))) as [|d ds];
    [discriminate|].
  change (U "#" ++ d :: ds) with (0x23 :: d :: ds).
  unfold is_anchor. now rewrite Hdigits.
Qed.

(** X11: anchors tell objects apart: two objects have the same anchor if and
    only if they have the same [id], the anchor of an object is [#] followed
    by the [id] attribute that [for_object] gives its element, and the
    targets of a header view whose entries are distinct objects are
    distinct. *)
Theorem X11_anchors_tell_objects_apart :
  (forall a b : object, anchor a = anchor b <-> id a = id b)
  /\ (forall (o : object) (extra_class : unicode),
         kwargs_get (U "id") (for_object o extra_class) = Some (decimal (id o))
         /\ anchor o = U "#" ++ decimal (id o))
  /\ (forall entries : list HeaderEntry,
         NoDup (map (fun entry => id (entry_obj entry)) entries) ->
         NoDup (reference_targets (HeaderView entries))).
Proof.
  assert (Hinj : forall a b : object, anchor a = anchor b -> id a = id b).
  { intros a b H. unfold anchor in H. apply app_inv_head in H.
    now apply decimal_inj. }
  split; [|split].
  - intros a b. split; [apply Hinj|]. intro H. unfold anchor. now rewrite H.
  - intros o extra_class. split; reflexivity.
  - intros entries. cbn [reference_targets].
    induction entries as [|entry rest IH]; [constructor|].
    cbn [map]. intro H. inversion H as [|x l Hnotin Hnodup]; subst.
    constructor; [|now apply IH].
    intro Hin. apply Hnotin. apply in_map_iff in Hin as (other & Heq & Hother).
    apply Hinj in Heq. apply in_map_iff. exists other. now split.
Qed.

(** X12: every reference target is well formed: whatever the value, each
    target is [#] followed by decimal digits, at least one, so that no
    target holds the comma or the space that [piece_to_html] puts between
    targets. *)
Theorem X12_targets_are_anchors (obj : referent) :
  forallb is_anchor (reference_targets obj) = true
  /\ forallb (forallb (fun c => negb (c =? 0x2C) && negb (c =? 0x20)))
             (reference_targets obj) = true.
Proof.
  assert (Hchars : forall t, is_anchor t = true ->
            forallb (fun c => negb (c =? 0x2C) && negb (c =? 0x20)) t = true).
  { intros [|c [|d ds]]; try discriminate. unfold is_anchor.
    intro H. apply andb_true_iff in H as [Hc Hdigits].
    apply N.eqb_eq in Hc. subst c.
    change (forallb (fun c => negb (c =? 0x2C) && negb (c =? 0x20))
                    (0x23 :: d :: ds))
      with (forallb (fun c => negb (c =? 0x2C) && negb (c =? 0x20)) (d :: ds)).
    revert Hdigits. generalize (d :: ds) as digits.
    induction digits as [|x rest IH]; [reflexivity|].
    cbn [forallb]. intro H. apply andb_true_iff in H as [Hx Hrest].
    rewrite (IH Hrest), andb_true_r. unfold is_digit in Hx.
    apply andb_true_iff in Hx as [Hlow Hhigh].
    apply N.leb_le in Hlow, Hhigh.
    destruct (N.eqb_spec x 0x2C); [lia|].
    destruct (N.eqb_spec x 0x20); [lia|reflexivity]. }
  assert (Hanchors : forallb is_anchor (reference_targets obj) = true).
  { revert obj. fix IH 1. intros [entries|items|o].
    - cbn [reference_targets].
      induction entries as [|entry rest IHentries]; [reflexivity|].
      cbn [map forallb]. now rewrite is_anchor_anchor, IHentries.
    - rewrite reference_targets_list. revert items.
      fix IHitems 1. intros [|item rest]; [reflexivity|].
      cbn [map concat]. rewrite forallb_app, (IH item), (IHitems rest).
      reflexivity.
    - cbn [reference_targets forallb]. now rewrite is_anchor_anchor. }
  split; [exact Hanchors|].
  revert Hanchors. generalize (reference_targets obj) as targets.
  induction targets as [|t rest IH]; [reflexivity|].
  cbn [forallb]. intro H. apply andb_true_iff in H as [Ht Hrest].
  now rewrite (Hchars t Ht), (IH Hrest).
Qed.

(** ** Entries and their targets *)

Section EntryTargets.

Context {context : Type}.
Variable env : @Collaborators context.

Lemma targets_of_entries (message : Message) (from_trailer : bool)
      (entries : list HeaderEntry) (start : nat) :
  map target_of
      (map (fun '(i, entry) => render_header_entry env message from_trailer i entry)
           (enumerate start entries))
  = map (fun entry => Some (anchor (entry_obj entry))) entries.
Proof.
  revert start; induction entries as [|entry rest IH]; intro start;
    [reflexivity|].
  cbn [enumerate map]. rewrite IH. reflexivity.
Qed.

(** X13: a reference to a header view points at the elements of its
    entries: the hypertext report builds one element per header (or trailer)
    entry, in order, and the targets that point to these elements ([#] and
    the [id] of the element) are the [reference_targets] of the header view
    of these entries. *)
Theorem X13_header_view_points_at_entries
        (message : Message) (entries : list HeaderEntry) (from_trailer : bool) :
  map target_of (render_header_entries env message entries from_trailer)
  = map Some (reference_targets (HeaderView entries))
  /\ length (render_header_entries env message entries from_trailer)
     = length entries.
Proof.
  unfold render_header_entries. split.
  - rewrite targets_of_entries. cbn [reference_targets]. now rewrite map_map.
  - rewrite <- (length_map target_of), targets_of_entries. apply length_map.
Qed.

End EntryTargets.

(** ** Header values in the two backends *)

Section HeaderValues.

Context {context : Type}.
Variable env : @Collaborators context.

Lemma nth_header_entry (msg : Message) (from_trailer : bool)
      (entries : list HeaderEntry) :
  forall (start i : nat) (entry : HeaderEntry),
    nth_error entries i = Some entry ->
    nth_error
      (map (fun '(i, entry) => render_header_entry env msg from_trailer i entry)
           (enumerate start entries)) i
    = Some (render_header_entry env msg from_trailer (start + i) entry).
Proof.
  induction entries as [|first rest IH]; intros start [|i] entry H;
    try discriminate.
  - inversion H; subst. cbn [enumerate map nth_error].
    replace (start + 0)%nat with start by apply plus_n_O. reflexivity.
  - cbn [enumerate map nth_error].
    replace (start + S i)%nat with (S start + i)%nat
      by (cbn [Nat.add]; apply plus_n_Sm).
    now apply IH.
Qed.

Lemma length_enumerate {A : Type} (xs : list A) :
  forall start : nat, length (enumerate start xs) = length xs.
Proof.
  induction xs as [|x rest IH]; intro start; [reflexivity|].
  cbn [enumerate length]. now rewrite IH.
Qed.

Lemma texts_render_annotated (pieces : list annotated) :
  texts (render_annotated env pieces)
  = concat (map (annotated_text env) pieces).
Proof.
  induction pieces as [|piece rest IH]; [reflexivity|].
  unfold render_annotated in *. cbn [map concat].
  rewrite texts_cons, IH. f_equal.
  destruct piece as [s|a]; rewrite node_text_element.
  - unfold texts, holding. cbn [map concat node_text annotated_text].
    now rewrite !app_nil_r.
  - apply texts_render_known.
Qed.

Lemma html_render_message_entries (msg : Message) (built : list node) :
  html_render_message env msg = Some built ->
  exists about_body : list node,
    built
    = render_header_entries env msg (header_entries msg) false
      ++ about_body
      ++ match trailer_entries msg with
         | Some ((_ :: _) as entries) =>
           [Element (U "div") [_class (U "review-block")]
              (holding (U "p") [_class (U "hint")]
                 (U "Header fields from the chunked trailer:")
               :: render_header_entries env msg entries true)]
         | _ => []
         end.
Proof.
  unfold html_render_message.
  destruct (displayable_body env msg) as [[shown notes]|]; [|discriminate].
  intro H. inversion H. eexists. reflexivity.
Qed.

End HeaderValues.

(** C9 (as amended): the text renderer shows of a header or trailer value
    the ASCII bytes only: the decoded value has no code point from 128 on,
    and the bytes of the line are those of the name part, then the ASCII
    bytes of the raw value in their order, then the line feed; these lines
    are what [render_message] writes for the header entries and, after the
    line about the body, for the trailer entries.  The hypertext renderer
    builds one element for each entry, in their order, and the element of
    the entry at index [i] of the header entries or of the trailer entries
    has the value as its last part: for an
    entry without annotation, the value decoded as UTF-8 with undecodable
    bytes dropped (made printable); for an annotated entry, the pieces of
    the annotation, a byte string piece being decoded in that way by itself
    and a known piece shown by its text.  These elements are what
    [HTMLReport.render_message] builds first, and last inside the block of
    the trailer.  For the value made of the two bytes C3 A9, without
    annotation, the text renderer shows nothing and the hypertext renderer
    shows U+00E9. *)
Theorem C9_header_value_decoding :
  (forall entry : HeaderEntry,
      Forall (fun c => c < 0x80) (ascii_decode Ignore (str_bytes (value entry)))
      /\ utf8_encode (entry_line entry)
         = utf8_encode (U "++ " ++ text (name entry) ++ U ": ")
           ++ filter (fun b => Byte.to_N b <? 0x80) (str_bytes (value entry))
           ++ [x0a])
  /\ (forall (context : Type) (env : @Collaborators context) (msg : Message)
             (out : list bytes) (w : bool),
         exists w' : bool,
           render_message env msg {| outfile := out; written := w |}
           = render_notices env (complaints msg)
               {| outfile :=
                    out
                    ++ map (fun e => utf8_encode (entry_line e))
                           (header_entries msg)
                    ++ body_summary msg
                    ++ map (fun e => utf8_encode (entry_line e))
                           (or_empty (trailer_entries msg));
                  written := w' |})
  /\ (forall (context : Type) (env : @Collaborators context) (msg : Message)
             (entries : list HeaderEntry) (from_trailer : bool)
             (i : nat) (entry : HeaderEntry),
         nth_error entries i = Some entry ->
         nth_error (render_header_entries env msg entries from_trailer) i
         = Some
             (Element (U "div") (__inline :: for_object (entry_obj entry) [])
                [Element (U "span") (for_object (atom_obj (name entry)) [])
                   (render_known env (name entry));
                 holding (U "span") [] (U ": ");
                 Element (U "span") (for_object (str_obj (value entry)) [])
                   match annotations_get (annotations msg) (from_trailer, i) with
                   | Some pieces => render_annotated env pieces
                   | None =>
                     [holding (U "span") []
                        (map (fun c => if is_printable env c then c else 0xFFFD)
                             (utf8_decode Ignore (str_bytes (value entry))))]
                   end]))
  /\ (forall (context : Type) (env : @Collaborators context) (msg : Message)
             (entries : list HeaderEntry) (from_trailer : bool),
         length (render_header_entries env msg entries from_trailer)
         = length entries)
  /\ (forall (context : Type) (env : @Collaborators context)
             (pieces : list annotated),
         texts (render_annotated env pieces)
         = concat (map (annotated_text env) pieces))
  /\ (forall (context : Type) (env : @Collaborators context) (msg : Message)
             (built : list node),
         html_render_message env msg = Some built ->
         exists about_body : list node,
           built
           = render_header_entries env msg (header_entries msg) false
             ++ about_body
             ++ match trailer_entries msg with
                | Some ((_ :: _) as entries) =>
                  [Element (U "div") [_class (U "review-block")]
                     (holding (U "p") [_class (U "hint")]
                        (U "Header fields from the chunked trailer:")
                      :: render_header_entries env msg entries true)]
                | _ => []
                end)
  /\ (output_of (render_message Sample.collaborators x_message)
                (TextReport_init [])
      = Some [Sample.line "++ X-Name: "]
      /\ option_map texts (html_render_message Sample.collaborators x_message)
         = Some (U "X-Name: " ++ [0xE9])).
Proof.
  split; [|split; [|split; [|split; [|split; [|split]]]]].
  - intro entry. split; [apply ascii_decode_ascii; exact Ignore|].
    unfold entry_line.
    rewrite !utf8_encode_app, utf8_encode_ascii_decode, <- !app_assoc.
    reflexivity.
  - intros context env msg out w. apply render_message_run.
  - intros context env msg entries from_trailer i entry H.
    unfold render_header_entries.
    rewrite (nth_header_entry env msg from_trailer entries 0 i entry H).
    reflexivity.
  - intros context env msg entries from_trailer.
    unfold render_header_entries. now rewrite length_map, length_enumerate.
  - intros context env pieces. apply texts_render_annotated.
  - intros context env msg built H. now apply html_render_message_entries.
  - split; reflexivity.
Qed.

(** C9 on the sample message whose header value is C3 A9. *)
Lemma C9_header_value_decoding_witness :
  nth_error
    (render_header_entries Sample.collaborators x_message
       (header_entries x_message) false) 0
  = Some
      (Element (U "div") (__inline :: for_object (entry_obj Sample.x_name) [])
         [Element (U "span") (for_object (atom_obj (name Sample.x_name)) [])
            (render_known Sample.collaborators (name Sample.x_name));
          holding (U "span") [] (U ": ");
          Element (U "span") (for_object (str_obj (value Sample.x_name)) [])
            [holding (U "span") [] [0xE9]]]).
Proof.
  exact (proj1 (proj2 (proj2 C9_header_value_decoding)) unit
           Sample.collaborators x_message (header_entries x_message) false
           0%nat Sample.x_name eq_refl).
Defined.

(** C9, the claim as stated fails for an annotated entry: the value C3 A9,
    cut by its annotation into the two bytes, is shown by the hypertext
    renderer as two empty strings, each byte being decoded by itself, and
    not as the value decoded as UTF-8, which is U+00E9. *)
Lemma C9_annotated_value_not_decoded_whole :
  header_entries split_message = [Sample.x_name]
  /\ annotations_get (annotations split_message) (false, 0%nat)
     = Some [AnnotatedStr (Sample.a_str 762 [xc3]);
             AnnotatedStr (Sample.a_str 763 [xa9])]
  /\ [xc3] ++ [xa9] = str_bytes (value Sample.x_name)
  /\ nth_error
       (render_header_entries Sample.collaborators split_message
          (header_entries split_message) false) 0
     = Some
         (Element (U "div")
            (__inline :: for_object (entry_obj Sample.x_name) [])
            [Element (U "span") (for_object (atom_obj (name Sample.x_name)) [])
               (render_known Sample.collaborators (name Sample.x_name));
             holding (U "span") [] (U ": ");
             Element (U "span") (for_object (str_obj (value Sample.x_name)) [])
               [Element (U "span")
                  (_class (U "annotated-piece")
                   :: for_object (Sample.obj "str" 762) [])
                  [holding (U "span") [] []];
                Element (U "span")
                  (_class (U "annotated-piece")
                   :: for_object (Sample.obj "str" 763) [])
                  [holding (U "span") [] []]]])
  /\ option_map texts (html_render_message Sample.collaborators split_message)
     = Some (U "X-Name: ")
  /\ utf8_decode Ignore (str_bytes (value Sample.x_name)) = [0xE9].
Proof. repeat split; reflexivity. Qed.
